(** * The Kafka frontier backend (crawlfrontier/contrib/backends/remote.py)

    A shallow embedding of [KafkaBackend] and of the [TestManager] stub.
    The backend object is a record, the outside world (broker, clock, log)
    is a trace of events, and every method is a computation in a
    state-and-exception monad, as the Python methods mutate [self], talk to
    the broker and may raise. *)

From Equations Require Import Equations.
From Equations.Prop Require Import Logic.
From Stdlib Require Import Ascii String List ZArith QArith Bool Lia.
Import ListNotations.

Local Open Scope string_scope.
Local Open Scope list_scope.
Local Open Scope Z_scope.

(** ** Python values *)

(** The objects that travel through the backend: what [json] decoding
    produces, what the manager hands to [add_seeds], and instances of
    classes, given by the class name and the constructor's arguments. *)
#[local] Unset Elimination Schemes.
Inductive pyobj : Type :=
| PyNone
| PyBool (b : bool)
| PyInt (z : Z)
| PyFloat (q : Q)
| PyStr (s : string)
| PyList (l : list pyobj)
| PyDict (d : list (string * pyobj))
| PyInstance (cls : string) (args : list pyobj).
#[local] Set Elimination Schemes.

(** Modelled from the spec: [crawlfrontier.core.models.Request] is not among
    the sources; the backend only builds it from one URL ("map each into the
    domain-level request type expected by the frontier manager"), so it is
    the instance of that class built from that URL. *)
Definition Request (url : pyobj) : pyobj := PyInstance "Request" [url].

(** The exceptions the module names or provokes. *)
Inductive exn : Type :=
| BrokerResponseError
| KafkaUnavailableError
| AttributeError
| KeyError
| TypeError
| ValueError
| RuntimeError
| IOError.

Definition is_BrokerResponseError (e : exn) : bool :=
  match e with BrokerResponseError => true | _ => false end.

Definition is_KafkaUnavailableError (e : exn) : bool :=
  match e with KafkaUnavailableError => true | _ => false end.

Definition is_KeyError_or_TypeError (e : exn) : bool :=
  match e with KeyError | TypeError => true | _ => false end.

Definition is_ValueError (e : exn) : bool :=
  match e with ValueError => true | _ => false end.

Inductive result (A : Type) : Type :=
| Ok (a : A)
| Raise (e : exn).
Arguments Ok {A} a.
Arguments Raise {A} e.

(** Truth value testing, as [x or default] uses it. *)
Class Truthy (A : Type) := truthy : A -> bool.

#[export] Instance Truthy_string : Truthy string :=
  fun s => match s with EmptyString => false | _ => true end.
#[export] Instance Truthy_Z : Truthy Z :=
  fun z => negb (z =? 0).
#[export] Instance Truthy_Q : Truthy Q :=
  fun q => negb (Qeq_bool q 0).
#[export] Instance Truthy_list {A} : Truthy (list A) :=
  fun l => match l with [] => false | _ => true end.

(** [x or d] where an unset keyword argument is [None]. *)
Definition py_or {A} `{Truthy A} (x : option A) (d : A) : A :=
  match x with
  | Some v => if truthy v then v else d
  | None => d
  end.

(** [obj[key]] for a string key. *)
Fixpoint dict_get (key : string) (d : list (string * pyobj)) : result pyobj :=
  match d with
  | [] => Raise KeyError
  | (k, v) :: d' => if String.eqb k key then Ok v else dict_get key d'
  end.

Definition getitem (obj : pyobj) (key : string) : result pyobj :=
  match obj with
  | PyDict d => dict_get key d
  | _ => Raise TypeError
  end.

(** [l[:n]] and [l[n:]] with Python's treatment of a negative bound. *)
Definition slice_index {A} (l : list A) (n : Z) : nat :=
  if n <? 0 then Z.to_nat (Z.of_nat (List.length l) + n) else Z.to_nat n.

Definition slice_to {A} (l : list A) (n : Z) : list A :=
  firstn (slice_index l n) l.

Definition slice_from {A} (l : list A) (n : Z) : list A :=
  skipn (slice_index l n) l.

(** ** The outside world *)

(** Log messages, one constructor per message of the module, carrying the
    values the message is formatted with. *)
Inductive logmsg : Type :=
| CouldNotConnectServer (server : string)
| CouldNotConnectProducer
| CouldNotConnectConsumer
| ConnectedConsumer (topic : string)
| WillTryLater (topic : string)
| CouldNotSend (n_tries comm_tries : Z)
| CouldNotConnectConsumerTo (topic : string)
| CouldNotGetUrl
| CouldNotDecode (topic : string) (value : option string)
| TimedOut (wait_time : Q) (max_n_requests fails comm_tries : Z).

(** What the backend does to the world, newest event first. *)
Inductive event : Type :=
| EvKafkaClient (server : string)
| EvSimpleProducer
| EvSimpleConsumer (group topic : string)
| EvSendMessages (topic msg : string)
| EvGetMessages (count : Z) (timeout : Q)
| EvProducerStop
| EvSleep (seconds : Q)
| EvLog (level : string) (msg : logmsg).

Definition trace := list event.

Definition is_client (e : event) : bool :=
  match e with EvKafkaClient _ => true | _ => false end.
Definition is_new_producer (e : event) : bool :=
  match e with EvSimpleProducer => true | _ => false end.
Definition is_new_consumer (e : event) : bool :=
  match e with EvSimpleConsumer _ _ => true | _ => false end.
Definition is_send (e : event) : bool :=
  match e with EvSendMessages _ _ => true | _ => false end.
Definition is_poll (e : event) : bool :=
  match e with EvGetMessages _ _ => true | _ => false end.
Definition is_broker_op (e : event) : bool :=
  match e with
  | EvKafkaClient _ | EvSimpleProducer | EvSimpleConsumer _ _
  | EvSendMessages _ _ | EvGetMessages _ _ | EvProducerStop => true
  | EvSleep _ | EvLog _ _ => false
  end.

Definition count (p : event -> bool) (tr : trace) : nat :=
  List.length (filter p tr).

(** The broker as the backend meets it: the outcome of the i-th call of
    each kind ([None]: the call returns normally), and for a poll the
    payloads [offmsg.message.value] of the messages it brings, a string
    each or Python's [None] for a message without payload. *)
Record Broker : Type := mkBroker {
  kafka_client : nat -> option exn;
  simple_producer : nat -> option exn;
  simple_consumer : nat -> option exn;
  send_messages : nat -> option exn;
  get_messages : nat -> Z -> list (option string)
}.

(** [ScrapyJSONEncoder.encode] and [ScrapyJSONDecoder.decode], which the
    module takes from [scrapy]; on a string [decode] returns the object or
    raises: [ValueError] on bytes that are not JSON, and whatever else the
    decoder raises ([RuntimeError] on nesting too deep to recurse into). *)
Class Codec : Type := mkCodec {
  encode : pyobj -> string;
  decode : string -> result pyobj
}.

(** The manager, as far as the backend uses it: the logging methods its
    [logger.backend] has, and its settings. *)
Record Manager : Type := mkManager {
  levels : list string;
  settings : string -> option string
}.

(** [TestManager.__init__] sets one attribute per element of the tuple
    [('info' 'debug', 'warning', 'error')], whose first two literals are
    adjacent and so are one string. *)
Definition TestManager : Manager :=
  {| levels := [String.append "info" "debug"; "warning"; "error"];
     settings := fun _ => None |}.

(** ** The monad of methods *)

Definition SE (S A : Type) : Type := S -> result A * S.

Definition ret {S A} (a : A) : SE S A := fun s => (Ok a, s).

Definition bind {S A B} (c : SE S A) (k : A -> SE S B) : SE S B :=
  fun s => match c s with
           | (Ok a, s') => k a s'
           | (Raise e, s') => (Raise e, s')
           end.

Definition raise {S A} (e : exn) : SE S A := fun s => (Raise e, s).

(** [try: body except <cls>: handler]. *)
Definition try_except {S A} (body : SE S A) (cls : exn -> bool)
    (handler : SE S A) : SE S A :=
  fun s => match body s with
           | (Ok a, s') => (Ok a, s')
           | (Raise e, s') => if cls e then handler s' else (Raise e, s')
           end.

Declare Scope se_scope.
Delimit Scope se_scope with se.
Notation "x <- c ;; k" := (bind c (fun x => k))
  (at level 61, c at next level, right associativity) : se_scope.
Notation "c ;; k" := (bind c (fun _ => k))
  (at level 61, right associativity) : se_scope.
Local Open Scope se_scope.

(** Computations on the world alone. *)
Definition W (A : Type) : Type := SE trace A.

Definition emit (e : event) : W unit := fun tr => (Ok tt, e :: tr).

(** A broker call: record it, then return or raise as the broker says for
    the call of this kind with this index. *)
Definition call (e : event) (kind : event -> bool)
    (outcome : nat -> option exn) : W unit :=
  fun tr => match outcome (count kind tr) with
            | None => (Ok tt, e :: tr)
            | Some x => (Raise x, e :: tr)
            end.

(** [time.sleep(seconds)], which raises on a negative length ([IOError],
    in the Python 2 the module is written in). *)
Definition sleep (seconds : Q) : W unit :=
  if Qle_bool 0 seconds then emit (EvSleep seconds) else raise IOError.

(** [manager.logger.backend.<level>(msg)]. *)
Definition log (m : Manager) (level : string) (msg : logmsg) : W unit :=
  if existsb (String.eqb level) (levels m)
  then emit (EvLog level msg)
  else raise AttributeError.

(** ** The backend object *)

Record Backend : Type := mkBackend {
  _manager : Manager;
  _seeds : list pyobj;
  _server : string;
  _topic_todo : string;
  _topic_done : string;
  _group : string;
  _wait_time : Q;
  _comm_tries : Z;
  _prod : option nat;
  _cons : option nat
}.

Definition set_seeds (l : list pyobj) (b : Backend) : Backend :=
  mkBackend (_manager b) l (_server b) (_topic_todo b) (_topic_done b)
    (_group b) (_wait_time b) (_comm_tries b) (_prod b) (_cons b).

Definition set_prod (p : option nat) (b : Backend) : Backend :=
  mkBackend (_manager b) (_seeds b) (_server b) (_topic_todo b)
    (_topic_done b) (_group b) (_wait_time b) (_comm_tries b) p (_cons b).

Definition set_cons (c : option nat) (b : Backend) : Backend :=
  mkBackend (_manager b) (_seeds b) (_server b) (_topic_todo b)
    (_topic_done b) (_group b) (_wait_time b) (_comm_tries b) (_prod b) c.

Definition DEFAULT_SERVER : string := "localhost:9092".
Definition DEFAULT_GROUP : string := "scrapy-crawler".
Definition DEFAULT_TOPIC_TODO : string := "frontier-todo".
Definition DEFAULT_TOPIC_DONE : string := "frontier-done".
Definition DEFAULT_WAIT_TIME : Q := 1%Q.
Definition DEFAULT_COMM_TRIES : Z := 5.

(** Methods run on the object and the world. *)
Definition M (A : Type) : Type := SE (Backend * trace) A.

Definition self : M Backend := fun s => (Ok (fst s), s).

Definition update (f : Backend -> Backend) : M unit :=
  fun s => (Ok tt, (f (fst s), snd s)).

Definition world {A} (c : W A) : M A :=
  fun s => let (r, tr) := c (snd s) in (r, (fst s, tr)).

Section KafkaBackend.

Context (broker : Broker) {codec : Codec}.

(** [SimpleProducer(self._conn)]: the handle is the number of the attempt. *)
Definition SimpleProducer : W nat :=
  fun tr => let i := count is_new_producer tr in
            match call EvSimpleProducer is_new_producer
                    (simple_producer broker) tr with
            | (Ok _, tr') => (Ok (Nat.succ i), tr')
            | (Raise e, tr') => (Raise e, tr')
            end.

(** [SimpleConsumer(self._conn, self._group, self._topic_todo)]. *)
Definition SimpleConsumer (group topic : string) : W nat :=
  fun tr => let i := count is_new_consumer tr in
            match call (EvSimpleConsumer group topic) is_new_consumer
                    (simple_consumer broker) tr with
            | (Ok _, tr') => (Ok (Nat.succ i), tr')
            | (Raise e, tr') => (Raise e, tr')
            end.

Definition _connect_producer : M bool :=
  b <- self ;;
  match _prod b with
  | None =>
      try_except
        (h <- world SimpleProducer ;;
         update (set_prod (Some h)) ;;
         ret true)
        is_BrokerResponseError
        (update (set_prod None) ;;
         world (log (_manager b) "warning" CouldNotConnectProducer) ;;
         ret false)
  | Some _ => ret true
  end.

Definition _connect_consumer : M bool :=
  b <- self ;;
  match _cons b with
  | None =>
      try_except
        (h <- world (SimpleConsumer (_group b) (_topic_todo b)) ;;
         update (set_cons (Some h)) ;;
         ret true)
        is_BrokerResponseError
        (update (set_cons None) ;;
         world (log (_manager b) "warning" CouldNotConnectConsumer) ;;
         ret false)
  | Some _ => ret true
  end.

(** [KafkaBackend.__init__]: the new object, or the exception raised. *)
Definition __init__ (manager : option Manager)
    (server group topic_todo topic_done : option string)
    (wait_time : option Q) (comm_tries : option Z) : W Backend :=
  let manager' := match manager with Some m => m | None => TestManager end in
  let server' := py_or server DEFAULT_SERVER in
  let topic_todo' := py_or topic_todo DEFAULT_TOPIC_TODO in
  let topic_done' := py_or topic_done DEFAULT_TOPIC_DONE in
  let group' := py_or group DEFAULT_GROUP in
  let wait_time' := py_or wait_time DEFAULT_WAIT_TIME in
  let comm_tries' := py_or comm_tries DEFAULT_COMM_TRIES in
  try_except
    (call (EvKafkaClient server') is_client (kafka_client broker))
    is_KafkaUnavailableError
    (log manager' "error" (CouldNotConnectServer server') ;;
     raise KafkaUnavailableError) ;;
  fun tr =>
    let b := mkBackend manager' [] server' topic_todo' topic_done' group'
               wait_time' comm_tries' None None in
    match (_connect_consumer ;; _connect_producer) (b, tr) with
    | (Ok _, (b', tr')) => (Ok b', tr')
    | (Raise e, (_, tr')) => (Raise e, tr')
    end.

(** [KafkaBackend.from_manager]. *)
Definition from_manager (manager : Manager) : W Backend :=
  __init__ (Some manager)
    (settings manager "KAFKA_SERVER")
    (settings manager "KAFKA_GROUP")
    (settings manager "KAFKA_TOPIC_TODO")
    (settings manager "KAFKA_TOPIC_DONE")
    None None.

Definition frontier_start : M unit :=
  b <- self ;;
  connected <- _connect_consumer ;;
  if connected
  then world (log (_manager b) "info" (ConnectedConsumer (_topic_todo b)))
  else world (log (_manager b) "warning" (WillTryLater (_topic_todo b))).

(** [self._prod.stop()]: looking [stop] up on [None] raises. *)
Definition frontier_stop : M unit :=
  b <- self ;;
  match _prod b with
  | None => raise AttributeError
  | Some _ => world (emit EvProducerStop)
  end.

(** What is left of a retry loop's budget: nothing once [success] is set,
    otherwise one more than the attempts still allowed. *)
Definition budget (success : bool) (tries limit : Z) : nat :=
  if success then O else S (Z.to_nat (limit - tries)).

(** The body of the [while] of [_send_message]: one send, and on a
    [BrokerResponseError] the count, the warning and the sleep. *)
Definition send_attempt (b : Backend) (msg : string)
    (success : bool) (n_tries : Z) : W (bool * Z) :=
  try_except
    (call (EvSendMessages (_topic_done b) msg) is_send
       (send_messages broker) ;;
     ret (true, n_tries))
    is_BrokerResponseError
    (let n_tries := n_tries + 1 in
     log (_manager b) "warning" (CouldNotSend n_tries (_comm_tries b)) ;;
     sleep (_wait_time b) ;;
     ret (success, n_tries)).

(** [while not success and n_tries < self._comm_tries: ...]. *)
Equations? send_loop (b : Backend) (msg : string) (success : bool)
    (n_tries : Z) (tr : trace) : result bool * trace
    by wf (budget success n_tries (_comm_tries b)) lt :=
  send_loop b msg true n_tries tr := (Ok true, tr);
  send_loop b msg false n_tries tr with Z_lt_dec n_tries (_comm_tries b) := {
    | right _ := (Ok false, tr);
    | left Hlt with inspect (send_attempt b msg false n_tries tr) := {
      | exist _ (Ok (success', n_tries'), tr') Heq :=
          send_loop b msg success' n_tries' tr';
      | exist _ (Raise e, tr') _ := (Raise e, tr') } }.
Proof.
  revert Heq.
  unfold send_attempt, try_except, bind, call, ret, log, sleep, emit, raise.
  destruct (send_messages broker _) as [x|].
  - destruct (is_BrokerResponseError x); [|discriminate].
    destruct (existsb _ _); [|discriminate].
    destruct (Qle_bool _ _); [|discriminate].
    intros [= <- <- _]. unfold budget. lia.
  - intros [= <- <- _]. unfold budget. lia.
Qed.

Definition _send_message (obj : pyobj) : M bool :=
  connected <- _connect_producer ;;
  if connected
  then b <- self ;;
       let msg := encode obj in
       world (send_loop b msg false 0)
  else ret false.

Definition add_seeds (seeds : list pyobj) : M unit :=
  update (fun b => set_seeds (_seeds b ++ seeds) b).

(** [response] and the [links] are objects with a [url] attribute; they are
    given by that attribute. *)
Definition page_crawled (response_url : pyobj) (links_urls : list pyobj)
    : M unit :=
  _send_message
    (PyDict [("url", response_url); ("links", PyList links_urls)]) ;;
  ret tt.

Definition request_error (page error : pyobj) : M unit := ret tt.

(** A pure step that returns or raises, as a computation. *)
Definition lift {S A} (r : result A) : SE S A := fun s => (r, s).

(** [self._decoder.decode(value)]: the decoder wants a string, and raises
    [TypeError] on [None]. *)
Definition decoder_decode (value : option string) : result pyobj :=
  match value with
  | Some text => decode text
  | None => Raise TypeError
  end.

(** [for x in l: body], threading the variables the body assigns. *)
Fixpoint for_each {S X A} (body : X -> A -> SE S A) (l : list X) (a : A)
    : SE S A :=
  match l with
  | [] => ret a
  | x :: l' => a' <- body x a ;; for_each body l' a'
  end.

(** [self._cons.get_messages(max_n_requests, timeout=self._wait_time)]. *)
Definition cons_get_messages (count_ : Z) (timeout : Q)
    : W (list (option string)) :=
  fun tr => (Ok (get_messages broker (count is_poll tr) count_),
             EvGetMessages count_ timeout :: tr).

(** The body of the [for] of [get_next_requests], on the payload
    [offmsg.message.value] of one message. *)
Definition process_message (b : Backend) (value : option string)
    (vars : list pyobj * bool) : W (list pyobj * bool) :=
  let urls := fst vars in
  let success := true in
  try_except
    (obj <- lift (decoder_decode value) ;;
     try_except
       (url <- lift (getitem obj "url") ;;
        ret (urls ++ [url], success))
       is_KeyError_or_TypeError
       (log (_manager b) "warning" CouldNotGetUrl ;;
        ret (urls, success)))
    is_ValueError
    (log (_manager b) "warning" (CouldNotDecode (_topic_todo b) value) ;;
     ret (urls, success)).

(** The body of the [while] of [get_next_requests]: one poll, its messages,
    and the count of a round without messages. *)
Definition poll_round (b : Backend) (max_n_requests : Z)
    (urls : list pyobj) (success : bool) (fails : Z)
    : W (list pyobj * bool * Z) :=
  msgs <- cons_get_messages max_n_requests (_wait_time b) ;;
  vars <- for_each (process_message b) msgs (urls, success) ;;
  let urls := fst vars in
  let success := snd vars in
  if negb success
  then let fails := fails + 1 in
       log (_manager b) "warning"
         (TimedOut (_wait_time b) max_n_requests fails (_comm_tries b)) ;;
       ret (urls, success, fails)
  else ret (urls, success, fails).

(** [while not success and fails < self._comm_tries: ...]. *)
Equations? poll_loop (b : Backend) (max_n_requests : Z) (urls : list pyobj)
    (success : bool) (fails : Z) (tr : trace) : result (list pyobj) * trace
    by wf (budget success fails (_comm_tries b)) lt :=
  poll_loop b max_n_requests urls true fails tr := (Ok urls, tr);
  poll_loop b max_n_requests urls false fails tr
    with Z_lt_dec fails (_comm_tries b) := {
    | right _ := (Ok urls, tr);
    | left Hlt
      with inspect (poll_round b max_n_requests urls false fails tr) := {
      | exist _ (Ok (urls', success', fails'), tr') Heq :=
          poll_loop b max_n_requests urls' success' fails' tr';
      | exist _ (Raise e, tr') _ := (Raise e, tr') } }.
Proof.
  revert Heq. unfold poll_round, bind at 1. cbn [cons_get_messages].
  unfold bind at 1.
  destruct (for_each _ _ _ _) as [[[urls1 success1]|x] tr1]; [|discriminate].
  cbn [fst snd]. destruct success1; cbn [negb].
  - unfold ret. intros [= <- <- <- _]. unfold budget. lia.
  - unfold bind, log, emit, raise, ret.
    destruct (existsb _ _); [|discriminate].
    intros [= <- <- <- _]. unfold budget. lia.
Qed.

Definition get_next_requests (max_n_requests : Z) : M (list pyobj) :=
  b <- self ;;
  if truthy (_seeds b)
  then let n := Z.min (Z.of_nat (List.length (_seeds b))) max_n_requests in
       let requests := slice_to (_seeds b) n in
       update (set_seeds (slice_from (_seeds b) n)) ;;
       ret requests
  else connected <- _connect_consumer ;;
       if negb connected
       then world (log (_manager b) "warning"
                     (CouldNotConnectConsumerTo (_topic_todo b))) ;;
            ret []
       else b <- self ;;
            urls <- world (poll_loop b max_n_requests [] false 0) ;;
            ret (map Request urls).

End KafkaBackend.


(** ** Sequences of calls *)

Section Calls.

Context (broker : Broker) {codec : Codec}.

(** [add_seeds] once per batch. *)
Definition add_seeds_all (batches : list (list pyobj)) : M unit :=
  for_each (fun seeds _ => add_seeds seeds) batches tt.

(** [get_next_requests(n)] once per [n], keeping what each call returns. *)
Fixpoint get_next_requests_all (ns : list Z) : M (list (list pyobj)) :=
  match ns with
  | [] => ret []
  | n :: ns' =>
      r <- get_next_requests broker n ;;
      rs <- get_next_requests_all ns' ;;
      ret (r :: rs)
  end.

End Calls.

(** ** The vocabulary of the statements *)

Definition sum (ns : list Z) : Z := fold_right Z.add 0 ns.

(** A manager whose logger has the method of this level. *)
Definition has_level (level : string) (m : Manager) : Prop :=
  existsb (String.eqb level) (levels m) = true.

(** The events of [k] failed sends in a row, the first of them counted as
    failure [n_tries + 1]. *)
Fixpoint failed_sends (b : Backend) (msg : string) (n_tries : Z) (k : nat)
    : trace :=
  match k with
  | O => []
  | S k' =>
      failed_sends b msg (n_tries + 1) k'
      ++ [EvSleep (_wait_time b);
          EvLog "warning" (CouldNotSend (n_tries + 1) (_comm_tries b));
          EvSendMessages (_topic_done b) msg]
  end.

(** The events of [k] polls in a row that bring nothing. *)
Fixpoint empty_polls (b : Backend) (max_n : Z) (fails : Z) (k : nat)
    : trace :=
  match k with
  | O => []
  | S k' =>
      empty_polls b max_n (fails + 1) k'
      ++ [EvLog "warning"
            (TimedOut (_wait_time b) max_n (fails + 1) (_comm_tries b));
          EvGetMessages max_n (_wait_time b)]
  end.

(** The [url] entry of the object a payload decodes to. *)
Definition url_field {codec : Codec} (value : option string)
    : result pyobj :=
  match decoder_decode value with
  | Ok obj => getitem obj "url"
  | Raise e => Raise e
  end.

(** The entries found in a batch, in arrival order. *)
Definition kept_urls {codec : Codec} (batch : list (option string))
    : list pyobj :=
  flat_map (fun value => match url_field value with
                         | Ok url => [url]
                         | Raise _ => []
                         end) batch.

(** The payloads the loop is written for: strings that the decoder
    decodes or rejects with [ValueError]. *)
Definition decodes_or_is_invalid {codec : Codec} (value : option string)
    : bool :=
  match decoder_decode value with
  | Ok _ => true
  | Raise e => is_ValueError e
  end.

(** The warning for a payload that is dropped. *)
Definition discard_log {codec : Codec} (b : Backend) (value : option string)
    : trace :=
  match decoder_decode value with
  | Raise e => if is_ValueError e
               then [EvLog "warning" (CouldNotDecode (_topic_todo b) value)]
               else []
  | Ok obj => match getitem obj "url" with
              | Ok _ => []
              | Raise _ => [EvLog "warning" CouldNotGetUrl]
              end
  end.

Fixpoint batch_log {codec : Codec} (b : Backend)
    (batch : list (option string)) : trace :=
  match batch with
  | [] => []
  | value :: batch' => batch_log b batch' ++ discard_log b value
  end.

(** The entries the data model admits: those that are strings. *)
Definition string_urls {codec : Codec} (batch : list (option string))
    : list pyobj :=
  flat_map (fun value => match url_field value with
                         | Ok (PyStr url) => [PyStr url]
                         | _ => []
                         end) batch.

(** A URL read from some message that some poll delivers. *)
Definition from_topic (broker : Broker) {codec : Codec} (url : pyobj) : Prop :=
  exists i c value,
    In value (get_messages broker i c) /\ url_field value = Ok url.

(** ** Further vocabulary *)

(** The outcomes of a connection attempt that the module handles: the
    handle, or a [BrokerResponseError]. *)
Definition accepted_or_refused (outcome : option exn) : Prop :=
  outcome = None \/ outcome = Some BrokerResponseError.

(** The calls the manager makes on the buffer, in any order. *)
Inductive buffer_call : Type :=
| AddSeeds (seeds : list pyobj)
| GetNextRequests (max_n_requests : Z).

(** The seeds handed in by a sequence of calls, in order. *)
Fixpoint seeds_added (calls : list buffer_call) : list pyobj :=
  match calls with
  | [] => []
  | AddSeeds seeds :: calls' => seeds ++ seeds_added calls'
  | GetNextRequests _ :: calls' => seeds_added calls'
  end.

(** Whether every [get_next_requests] of the sequence asks for a count. *)
Fixpoint counts_only (calls : list buffer_call) : Prop :=
  match calls with
  | [] => True
  | AddSeeds _ :: calls' => counts_only calls'
  | GetNextRequests n :: calls' => 0 <= n /\ counts_only calls'
  end.

Section BufferCalls.

Context (broker : Broker) {codec : Codec}.

(** The calls in order, keeping what every [get_next_requests] returns. *)
Fixpoint buffer_calls (calls : list buffer_call) : M (list (list pyobj)) :=
  match calls with
  | [] => ret []
  | AddSeeds seeds :: calls' =>
      add_seeds seeds ;; buffer_calls calls'
  | GetNextRequests n :: calls' =>
      r <- get_next_requests broker n ;;
      rs <- buffer_calls calls' ;;
      ret (r :: rs)
  end.

End BufferCalls.

Definition is_sleep (e : event) : bool :=
  match e with EvSleep _ => true | _ => false end.

(** [manager or TestManager()]. *)
Definition manager_or_test (manager : option Manager) : Manager :=
  match manager with Some m => m | None => TestManager end.

Definition Q_eqb (p q : Q) : bool :=
  (Qnum p =? Qnum q) && Pos.eqb (Qden p) (Qden q).

(** What publishing [msg] may leave in the world: an attempt to connect
    the producer, sends of [msg] to [topic], warnings and sleeps. *)
Definition publishing (topic msg : string) (e : event) : bool :=
  match e with
  | EvSimpleProducer | EvLog _ _ | EvSleep _ => true
  | EvSendMessages t m => String.eqb t topic && String.eqb m msg
  | _ => false
  end.

(** What fetching may leave in the world: an attempt to connect the
    consumer of [group] to [topic], polls for [count_] messages within
    [timeout], and warnings. *)
Definition fetching (group topic : string) (count_ : Z) (timeout : Q)
    (e : event) : bool :=
  match e with
  | EvLog _ _ => true
  | EvSimpleConsumer g t => String.eqb g group && String.eqb t topic
  | EvGetMessages c t => (c =? count_) && Q_eqb t timeout
  | _ => false
  end.

Definition is_log (e : event) : bool :=
  match e with EvLog _ _ => true | _ => false end.

(** ** Inputs for the examples *)

Module Examples.

(** A manager with a complete logger. *)
Definition manager : Manager :=
  {| levels := ["info"; "debug"; "warning"; "error"];
     settings := fun _ => None |}.

(** A broker that accepts the client and refuses everything else. *)
Definition unreachable : Broker :=
  {| kafka_client := fun _ => None;
     simple_producer := fun _ => Some BrokerResponseError;
     simple_consumer := fun _ => Some BrokerResponseError;
     send_messages := fun _ => Some BrokerResponseError;
     get_messages := fun _ _ => [] |}.

(** A broker that connects both roles, fails every send and has an idle
    topic. *)
Definition idle : Broker :=
  {| kafka_client := fun _ => None;
     simple_producer := fun _ => None;
     simple_consumer := fun _ => None;
     send_messages := fun _ => Some BrokerResponseError;
     get_messages := fun _ _ => [] |}.

(** A broker whose first poll delivers [batch]. *)
Definition delivering (batch : list (option string)) : Broker :=
  {| kafka_client := fun _ => None;
     simple_producer := fun _ => None;
     simple_consumer := fun _ => None;
     send_messages := fun _ => None;
     get_messages := fun i _ => match i with O => batch | _ => [] end |}.

(** [quoted s] is [s] between double quotes. *)
Definition quoted (s : string) : string :=
  String "034"%char (String.append s (String "034"%char EmptyString)).

Definition concat_strings (l : list string) : string :=
  fold_right String.append EmptyString l.

(** The texts
    [{"url": "http://a"}], [{"links": []}], [{"url": 5}] and [{"url": ],
    and a text of nested lists, standing for one nested too deep. *)
Definition good_text : string :=
  concat_strings ["{"; quoted "url"; ": "; quoted "http://a"; "}"].
Definition no_url_text : string :=
  concat_strings ["{"; quoted "links"; ": []}"].
Definition int_url_text : string :=
  concat_strings ["{"; quoted "url"; ": 5}"].
Definition garbage_text : string :=
  concat_strings ["{"; quoted "url"; ": "].
Definition deep_text : string := "[[[[[[[[".

(** The payloads with these texts, and the payload of a message that has
    none. *)
Definition good : option string := Some good_text.
Definition no_url : option string := Some no_url_text.
Definition int_url : option string := Some int_url_text.
Definition garbage : option string := Some garbage_text.
Definition deep : option string := Some deep_text.
Definition null : option string := None.

(** What the JSON decoder makes of the texts above. *)
Definition table : Codec :=
  {| encode := fun _ => EmptyString;
     decode := fun text =>
       if String.eqb text good_text
       then Ok (PyDict [("url", PyStr "http://a")])
       else if String.eqb text no_url_text
       then Ok (PyDict [("links", PyList [])])
       else if String.eqb text int_url_text
       then Ok (PyDict [("url", PyInt 5)])
       else if String.eqb text deep_text
       then Raise RuntimeError
       else Raise ValueError |}.

Definition a : pyobj := PyStr "http://a".
Definition b : pyobj := PyStr "http://b".
Definition c : pyobj := PyStr "http://c".

(** An object as the constructor leaves it, by its connections and its
    retry settings. *)
Definition backend (prod cons : option nat) (wait_time : Q) (comm_tries : Z)
    : Backend :=
  mkBackend manager [] DEFAULT_SERVER DEFAULT_TOPIC_TODO DEFAULT_TOPIC_DONE
    DEFAULT_GROUP wait_time comm_tries prod cons.

(** Three tries and no wait, with both roles connected and with none. *)
Definition connected : Backend := backend (Some 1%nat) (Some 1%nat) 0 3.
Definition unconnected : Backend := backend None None 0 3.

(** A broker whose first [k] sends are refused and whose topic brings
    [batch] at poll number [k] and nothing at the others. *)
Definition flaky (k : nat) (batch : list (option string)) : Broker :=
  {| kafka_client := fun _ => None;
     simple_producer := fun _ => None;
     simple_consumer := fun _ => None;
     send_messages := fun i => if Nat.ltb i k
                               then Some BrokerResponseError else None;
     get_messages := fun i _ => if Nat.eqb i k then batch else [] |}.

(** A broker that refuses the first attempt of each role and accepts the
    later ones. *)
Definition recovering : Broker :=
  {| kafka_client := fun _ => None;
     simple_producer := fun i => match i with
                                 | O => Some BrokerResponseError
                                 | _ => None
                                 end;
     simple_consumer := fun i => match i with
                                 | O => Some BrokerResponseError
                                 | _ => None
                                 end;
     send_messages := fun _ => None;
     get_messages := fun _ _ => [] |}.

(** A broker behind a client that answers every call with
    [KafkaUnavailableError]. *)
Definition unavailable : Broker :=
  {| kafka_client := fun _ => Some KafkaUnavailableError;
     simple_producer := fun _ => Some KafkaUnavailableError;
     simple_consumer := fun _ => Some KafkaUnavailableError;
     send_messages := fun _ => Some KafkaUnavailableError;
     get_messages := fun _ _ => [] |}.

(** A manager with the settings the backend reads. *)
Definition configured : Manager :=
  {| levels := ["info"; "debug"; "warning"; "error"];
     settings := fun key =>
       if String.eqb key "KAFKA_SERVER" then Some "kafka:9092"
       else if String.eqb key "KAFKA_GROUP" then Some "crawlers"
       else None |}.

(** A connected object with three tries and a wait of minus one second. *)
Definition hasty : Backend := backend (Some 1%nat) (Some 1%nat) (-1) 3.

(** The object that [KafkaBackend()] is on a broker that accepts both
    roles, and the one that [from_manager] makes of [configured]. *)
Definition by_default : Backend :=
  mkBackend TestManager [] DEFAULT_SERVER DEFAULT_TOPIC_TODO
    DEFAULT_TOPIC_DONE DEFAULT_GROUP DEFAULT_WAIT_TIME DEFAULT_COMM_TRIES
    (Some 1%nat) (Some 1%nat).

Definition from_settings : Backend :=
  mkBackend configured [] "kafka:9092" DEFAULT_TOPIC_TODO DEFAULT_TOPIC_DONE
    "crawlers" DEFAULT_WAIT_TIME DEFAULT_COMM_TRIES (Some 1%nat) (Some 1%nat).

End Examples.

(** ** The monad, unfolded *)

Ltac run :=
  unfold bind, ret, raise, self, update, world, lift, emit, try_except;
  cbn [fst snd].

Lemma bind_Ok {S A B} (c : SE S A) (k : A -> SE S B) s a s' :
  c s = (Ok a, s') -> bind c k s = k a s'.
Proof. intros H. unfold bind. rewrite H. reflexivity. Qed.

Lemma bind_self {B} (k : Backend -> M B) s : bind self k s = k (fst s) s.
Proof. reflexivity. Qed.

Lemma world_eq {A} (c : W A) b tr r tr' :
  c tr = (r, tr') -> world c (b, tr) = (r, (b, tr')).
Proof. intros H. unfold world. cbn. rewrite H. reflexivity. Qed.

Lemma log_Ok (m : Manager) (level : string) (msg : logmsg) (tr : trace) :
  has_level level m -> log m level msg tr = (Ok tt, EvLog level msg :: tr).
Proof. unfold has_level, log. intros ->. reflexivity. Qed.

Lemma sleep_Ok (seconds : Q) (tr : trace) :
  (0 <= seconds)%Q -> sleep seconds tr = (Ok tt, EvSleep seconds :: tr).
Proof.
  intros H. unfold sleep. apply Qle_bool_iff in H. rewrite H. reflexivity.
Qed.

Lemma set_cons_same (b : Backend) : set_cons (_cons b) b = b.
Proof. destruct b; reflexivity. Qed.

Lemma set_prod_same (b : Backend) : set_prod (_prod b) b = b.
Proof. destruct b; reflexivity. Qed.

Lemma set_seeds_same (b : Backend) : set_seeds (_seeds b) b = b.
Proof. destruct b; reflexivity. Qed.

(** ** Connections *)

Section Connections.

Context (broker : Broker).

Lemma _connect_consumer_connected (b : Backend) (tr : trace) (h : nat) :
  _cons b = Some h -> _connect_consumer broker (b, tr) = (Ok true, (b, tr)).
Proof.
  intros Hc. unfold _connect_consumer. rewrite bind_self. cbn [fst].
  rewrite Hc. reflexivity.
Qed.

(** A refused consumer: the attempt, the warning, [False], and the handle
    still unset. *)
Lemma _connect_consumer_refused (b : Backend) (tr : trace) :
  _cons b = None ->
  simple_consumer broker (count is_new_consumer tr) = Some BrokerResponseError ->
  has_level "warning" (_manager b) ->
  _connect_consumer broker (b, tr)
  = (Ok false,
     (b, EvLog "warning" CouldNotConnectConsumer
         :: EvSimpleConsumer (_group b) (_topic_todo b) :: tr)).
Proof.
  intros Hc Hbroker Hlog. unfold _connect_consumer. rewrite bind_self.
  cbn [fst]. rewrite Hc.
  unfold try_except, bind at 1, world at 1, SimpleConsumer, call.
  cbn [fst snd]. rewrite Hbroker. cbn [is_BrokerResponseError].
  unfold bind, update, world. cbn [fst snd].
  rewrite log_Ok by assumption. unfold ret.
  rewrite <- Hc at 1. rewrite set_cons_same. reflexivity.
Qed.

Lemma _connect_producer_connected (b : Backend) (tr : trace) (h : nat) :
  _prod b = Some h -> _connect_producer broker (b, tr) = (Ok true, (b, tr)).
Proof.
  intros Hp. unfold _connect_producer. rewrite bind_self. cbn [fst].
  rewrite Hp. reflexivity.
Qed.

End Connections.

(** ** The seed buffer *)

Section SeedBuffer.

Context (broker : Broker) {codec : Codec}.

Lemma slice_to_from {A} (l : list A) (n : Z) :
  slice_to l n ++ slice_from l n = l.
Proof. apply firstn_skipn. Qed.

Lemma slice_index_min {A} (l : list A) (n : Z) :
  0 <= n ->
  slice_index l (Z.min (Z.of_nat (List.length l)) n)
  = Nat.min (List.length l) (Z.to_nat n).
Proof.
  intros Hn. unfold slice_index.
  destruct (Z.ltb_spec (Z.min (Z.of_nat (List.length l)) n) 0); lia.
Qed.

Lemma slice_to_min {A} (l : list A) (n : Z) :
  0 <= n ->
  slice_to l (Z.min (Z.of_nat (List.length l)) n) = firstn (Z.to_nat n) l.
Proof.
  intros Hn. unfold slice_to. rewrite slice_index_min by assumption.
  destruct (Nat.le_ge_cases (List.length l) (Z.to_nat n)) as [Hle|Hle].
  - rewrite Nat.min_l by assumption.
    rewrite !firstn_all2; [reflexivity | assumption | reflexivity].
  - rewrite Nat.min_r by assumption. reflexivity.
Qed.

Lemma slice_from_min {A} (l : list A) (n : Z) :
  0 <= n ->
  slice_from l (Z.min (Z.of_nat (List.length l)) n) = skipn (Z.to_nat n) l.
Proof.
  intros Hn. unfold slice_from. rewrite slice_index_min by assumption.
  destruct (Nat.le_ge_cases (List.length l) (Z.to_nat n)) as [Hle|Hle].
  - rewrite Nat.min_l by assumption.
    rewrite !skipn_all2; [reflexivity | assumption | reflexivity].
  - rewrite Nat.min_r by assumption. reflexivity.
Qed.

(** A call that finds seeds only splits the buffer. *)
Lemma get_next_requests_seeds (b : Backend) (tr : trace) (n : Z) :
  _seeds b <> [] ->
  let k := Z.min (Z.of_nat (List.length (_seeds b))) n in
  get_next_requests broker n (b, tr)
  = (Ok (slice_to (_seeds b) k), (set_seeds (slice_from (_seeds b) k) b, tr)).
Proof.
  intros Hne k. unfold get_next_requests. run.
  destruct (_seeds b) eqn:Hs; [contradiction|]. reflexivity.
Qed.

End SeedBuffer.

Section SeedBufferCalls.

Context (broker : Broker) {codec : Codec}.

(** A call with an empty buffer, no consumer and a broker that refuses the
    consumer: a connection attempt, two warnings, nothing returned. *)
Lemma get_next_requests_unreachable (b : Backend) (tr : trace) (n : Z) :
  _seeds b = [] ->
  _cons b = None ->
  simple_consumer broker (count is_new_consumer tr) = Some BrokerResponseError ->
  has_level "warning" (_manager b) ->
  get_next_requests broker n (b, tr)
  = (Ok [],
     (b, EvLog "warning" (CouldNotConnectConsumerTo (_topic_todo b))
         :: EvLog "warning" CouldNotConnectConsumer
         :: EvSimpleConsumer (_group b) (_topic_todo b) :: tr)).
Proof.
  intros Hs Hc Hbroker Hlog.
  unfold get_next_requests. rewrite bind_self. cbn [fst].
  rewrite Hs. cbn [truthy Truthy_list].
  erewrite bind_Ok by (apply _connect_consumer_refused; assumption).
  cbn [negb]. erewrite bind_Ok by (apply world_eq, log_Ok; assumption).
  reflexivity.
Qed.

Lemma add_seeds_all_spec (batches : list (list pyobj)) (b : Backend)
    (tr : trace) :
  add_seeds_all batches (b, tr)
  = (Ok tt, (set_seeds (_seeds b ++ concat batches) b, tr)).
Proof.
  unfold add_seeds_all. revert b.
  induction batches as [|seeds batches IH]; intros b; cbn [for_each concat].
  - rewrite app_nil_r, set_seeds_same. reflexivity.
  - erewrite bind_Ok by reflexivity. cbn [fst snd]. rewrite IH.
    cbn [_seeds set_seeds]. rewrite <- app_assoc. reflexivity.
Qed.

Lemma sum_nonneg (ns : list Z) : Forall (fun n => 0 <= n) ns -> 0 <= sum ns.
Proof. unfold sum. induction 1; cbn [fold_right]; lia. Qed.

(** Calls against an unreachable broker hand the buffer out from its front
    and touch nothing else of the object. *)
Lemma get_next_requests_all_unreachable (ns : list Z) (b : Backend)
    (tr : trace) :
  _cons b = None ->
  (forall i, simple_consumer broker i = Some BrokerResponseError) ->
  has_level "warning" (_manager b) ->
  exists results rest tr',
    get_next_requests_all broker ns (b, tr)
    = (Ok results, (set_seeds rest b, tr'))
    /\ concat results ++ rest = _seeds b
    /\ (Forall (fun n => 0 <= n) ns ->
        Forall2 (fun n r => Z.of_nat (List.length r) <= n) ns results
        /\ (Z.of_nat (List.length (_seeds b)) <= sum ns -> rest = [])).
Proof.
  intros Hc Hbroker Hlog. revert b tr Hc Hlog.
  induction ns as [|n ns IH]; intros b tr Hc Hlog.
  - exists [], (_seeds b), tr. rewrite set_seeds_same. cbn.
    repeat split; auto.
    destruct (_seeds b); [reflexivity | cbn in *; lia].
  - cbn [get_next_requests_all].
    destruct (_seeds b) as [|x l] eqn:Hs.
    + erewrite bind_Ok
        by (apply get_next_requests_unreachable; auto).
      destruct (IH b (EvLog "warning" (CouldNotConnectConsumerTo (_topic_todo b))
         :: EvLog "warning" CouldNotConnectConsumer
         :: EvSimpleConsumer (_group b) (_topic_todo b) :: tr) Hc Hlog)
        as (rs & rest & tr' & Hrun & Heq & Hrest).
      exists ([] :: rs), rest, tr'. erewrite bind_Ok by exact Hrun.
      rewrite Hs in Heq, Hrest. cbn. repeat split; auto.
      * inversion H; subst. constructor; [cbn; lia|]. now apply Hrest.
      * inversion H; subst. intros _. apply Hrest; [assumption|].
        cbn. now apply sum_nonneg.
    + assert (Hne : _seeds b <> []) by (rewrite Hs; discriminate).
      erewrite bind_Ok by (apply get_next_requests_seeds; exact Hne).
      set (k := Z.min (Z.of_nat (List.length (_seeds b))) n).
      destruct (IH (set_seeds (slice_from (_seeds b) k) b) tr Hc Hlog)
        as (rs & rest & tr' & Hrun & Heq & Hrest).
      exists (slice_to (_seeds b) k :: rs), rest, tr'.
      erewrite bind_Ok by exact Hrun. cbn [_seeds set_seeds] in *.
      rewrite <- Hs. split; [destruct b; reflexivity|]. split.
      * cbn [concat]. rewrite <- app_assoc, Heq. apply slice_to_from.
      * intros HF. inversion HF as [|? ? Hn HF']; subst.
        destruct (Hrest HF') as [Hbound Hempty]. subst k.
        rewrite slice_from_min in Hempty by assumption.
        rewrite slice_to_min by assumption. split.
        -- constructor; [|assumption].
           rewrite length_firstn. lia.
        -- intros Hsum. apply Hempty. rewrite length_skipn.
           cbn [sum fold_right] in Hsum. fold (sum ns) in Hsum.
           pose proof (sum_nonneg ns HF'). lia.
Qed.

(** C1. After any [add_seeds] calls on an object with an empty buffer and
    no consumer, facing a broker that refuses the consumer, any
    [get_next_requests(n)] calls with [n >= 0] all return; each returns at
    most [n] items; what they return, in call order, followed by what is
    left in the buffer, is what was added, in add order; once the calls
    have asked for as many items as were added they have returned exactly
    the items added; and whatever further calls return comes from what was
    left, so that no item is returned twice. *)
Theorem seed_buffer_fifo (b : Backend) (tr : trace)
    (batches : list (list pyobj)) (ns ms : list Z) :
  _seeds b = [] ->
  _cons b = None ->
  (forall i, simple_consumer broker i = Some BrokerResponseError) ->
  has_level "warning" (_manager b) ->
  Forall (fun n => 0 <= n) ns ->
  exists results rest tr1 later rest' tr2,
    (add_seeds_all batches ;; get_next_requests_all broker ns) (b, tr)
    = (Ok results, (set_seeds rest b, tr1))
    /\ Forall2 (fun n r => Z.of_nat (List.length r) <= n) ns results
    /\ concat results ++ rest = concat batches
    /\ (Z.of_nat (List.length (concat batches)) <= sum ns ->
        concat results = concat batches)
    /\ get_next_requests_all broker ms (set_seeds rest b, tr1)
       = (Ok later, (set_seeds rest' b, tr2))
    /\ concat results ++ concat later ++ rest' = concat batches.
Proof.
  intros Hs Hc Hbroker Hlog Hns.
  erewrite bind_Ok by apply add_seeds_all_spec.
  rewrite Hs. cbn [app].
  destruct (get_next_requests_all_unreachable ns
              (set_seeds (concat batches) b) tr Hc Hbroker Hlog)
    as (results & rest & tr1 & Hrun & Heq & Hrest).
  destruct (Hrest Hns) as [Hbound Hempty].
  destruct (get_next_requests_all_unreachable ms
              (set_seeds rest b) tr1 Hc Hbroker Hlog)
    as (later & rest' & tr2 & Hrun' & Heq' & _).
  cbn [_seeds set_seeds] in *.
  exists results, rest, tr1, later, rest', tr2.
  replace (set_seeds rest (set_seeds (concat batches) b))
    with (set_seeds rest b) in Hrun by (destruct b; reflexivity).
  replace (set_seeds rest' (set_seeds rest b))
    with (set_seeds rest' b) in Hrun' by (destruct b; reflexivity).
  repeat split; auto.
  - intros Hsum. rewrite (Hempty Hsum), app_nil_r in Heq. exact Heq.
  - rewrite Heq'. exact Heq.
Qed.

End SeedBufferCalls.

(** ** The retry loops *)

Section Retry.

Context (broker : Broker) {codec : Codec}.

(** The loops satisfy the equation of the [while] they stand for. *)
Lemma send_loop_while b msg success n_tries tr :
  send_loop broker b msg success n_tries tr
  = if negb success && (n_tries <? _comm_tries b)
    then match send_attempt broker b msg success n_tries tr with
         | (Ok (success', n_tries'), tr') =>
             send_loop broker b msg success' n_tries' tr'
         | (Raise e, tr') => (Raise e, tr')
         end
    else (Ok success, tr).
Proof.
  destruct success; simp send_loop; [reflexivity|]. cbn [negb andb].
  destruct (Z_lt_dec n_tries (_comm_tries b)) as [H|H];
    cbn -[send_attempt send_loop].
  - destruct (Z.ltb_spec n_tries (_comm_tries b)); [|lia].
    destruct (send_attempt broker b msg false n_tries tr)
      as [[[s' n']|e] tr']; reflexivity.
  - destruct (Z.ltb_spec n_tries (_comm_tries b)); [lia|reflexivity].
Qed.

Lemma poll_loop_while b max_n urls success fails tr :
  poll_loop broker b max_n urls success fails tr
  = if negb success && (fails <? _comm_tries b)
    then match poll_round broker b max_n urls success fails tr with
         | (Ok (urls', success', fails'), tr') =>
             poll_loop broker b max_n urls' success' fails' tr'
         | (Raise e, tr') => (Raise e, tr')
         end
    else (Ok urls, tr).
Proof.
  destruct success; simp poll_loop; [reflexivity|]. cbn [negb andb].
  destruct (Z_lt_dec fails (_comm_tries b)) as [H|H];
    cbn -[poll_round poll_loop].
  - destruct (Z.ltb_spec fails (_comm_tries b)); [|lia].
    destruct (poll_round broker b max_n urls false fails tr)
      as [[[[u' s'] f']|e] tr']; reflexivity.
  - destruct (Z.ltb_spec fails (_comm_tries b)); [lia|reflexivity].
Qed.

Lemma count_app p (t1 t2 : trace) :
  count p (t1 ++ t2) = (count p t1 + count p t2)%nat.
Proof. unfold count. rewrite filter_app, length_app. reflexivity. Qed.

Lemma count_cons p (e : event) (tr : trace) :
  count p (e :: tr) = ((if p e then 1 else 0) + count p tr)%nat.
Proof. unfold count. cbn [filter]. destruct (p e); reflexivity. Qed.

Lemma count_failed_sends b msg n k :
  count is_send (failed_sends b msg n k) = k.
Proof.
  revert n. induction k as [|k IH]; intros n; [reflexivity|].
  cbn [failed_sends]. rewrite count_app, IH. cbn. lia.
Qed.

Lemma count_empty_polls b max_n n k :
  count is_poll (empty_polls b max_n n k) = k.
Proof.
  revert n. induction k as [|k IH]; intros n; [reflexivity|].
  cbn [empty_polls]. rewrite count_app, IH. cbn. lia.
Qed.

Lemma send_attempt_refused b msg success n_tries tr :
  send_messages broker (count is_send tr) = Some BrokerResponseError ->
  has_level "warning" (_manager b) ->
  (0 <= _wait_time b)%Q ->
  send_attempt broker b msg success n_tries tr
  = (Ok (success, n_tries + 1),
     EvSleep (_wait_time b)
     :: EvLog "warning" (CouldNotSend (n_tries + 1) (_comm_tries b))
     :: EvSendMessages (_topic_done b) msg :: tr).
Proof.
  intros Hbroker Hlog Hwait. unfold send_attempt, try_except, bind at 1, call.
  rewrite Hbroker. cbn [is_BrokerResponseError].
  erewrite bind_Ok by (apply log_Ok; assumption).
  erewrite bind_Ok by (apply sleep_Ok; assumption). reflexivity.
Qed.

(** When every send is refused the loop runs until the tries are used up. *)
Lemma send_loop_refused b msg (k : nat) n_tries tr :
  (forall i, send_messages broker i = Some BrokerResponseError) ->
  has_level "warning" (_manager b) ->
  (0 <= _wait_time b)%Q ->
  Z.of_nat k = _comm_tries b - n_tries ->
  send_loop broker b msg false n_tries tr
  = (Ok false, failed_sends b msg n_tries k ++ tr).
Proof.
  intros Hbroker Hlog Hwait. revert n_tries tr.
  induction k as [|k IH]; intros n_tries tr Hk; rewrite send_loop_while;
    cbn [negb andb].
  - destruct (Z.ltb_spec n_tries (_comm_tries b)); [lia|reflexivity].
  - destruct (Z.ltb_spec n_tries (_comm_tries b)); [|lia].
    rewrite send_attempt_refused by auto.
    rewrite IH by lia. cbn [failed_sends].
    rewrite <- app_assoc. reflexivity.
Qed.

Lemma poll_round_empty b max_n urls fails tr :
  get_messages broker (count is_poll tr) max_n = [] ->
  has_level "warning" (_manager b) ->
  poll_round broker b max_n urls false fails tr
  = (Ok (urls, false, fails + 1),
     EvLog "warning"
       (TimedOut (_wait_time b) max_n (fails + 1) (_comm_tries b))
     :: EvGetMessages max_n (_wait_time b) :: tr).
Proof.
  intros Hbroker Hlog. unfold poll_round, bind at 1, cons_get_messages.
  rewrite Hbroker. cbn [for_each]. unfold bind at 1, ret at 1.
  cbn [fst snd negb]. erewrite bind_Ok by (apply log_Ok; assumption).
  reflexivity.
Qed.

(** On an idle topic the loop polls until the tries are used up. *)
Lemma poll_loop_idle b max_n urls (k : nat) fails tr :
  (forall i c, get_messages broker i c = []) ->
  has_level "warning" (_manager b) ->
  Z.of_nat k = _comm_tries b - fails ->
  poll_loop broker b max_n urls false fails tr
  = (Ok urls, empty_polls b max_n fails k ++ tr).
Proof.
  intros Hbroker Hlog. revert fails tr.
  induction k as [|k IH]; intros fails tr Hk; rewrite poll_loop_while;
    cbn [negb andb].
  - destruct (Z.ltb_spec fails (_comm_tries b)); [lia|reflexivity].
  - destruct (Z.ltb_spec fails (_comm_tries b)); [|lia].
    rewrite poll_round_empty by auto.
    rewrite IH by lia. cbn [empty_polls].
    rewrite <- app_assoc. reflexivity.
Qed.

(** C4. With an empty seed buffer, a connected consumer and a topic whose
    every poll brings no message, [get_next_requests] polls exactly
    [_comm_tries] times, logging a timeout after each poll and touching
    nothing else, and returns the empty list. *)
Theorem idle_topic_polls_comm_tries (b : Backend) (tr : trace) (h : nat)
    (max_n : Z) :
  _seeds b = [] ->
  _cons b = Some h ->
  (forall i c, get_messages broker i c = []) ->
  has_level "warning" (_manager b) ->
  0 <= _comm_tries b ->
  let tr' := empty_polls b max_n 0 (Z.to_nat (_comm_tries b)) ++ tr in
  get_next_requests broker max_n (b, tr) = (Ok [], (b, tr'))
  /\ Z.of_nat (count is_poll tr')
     = Z.of_nat (count is_poll tr) + _comm_tries b.
Proof.
  intros Hs Hc Hbroker Hlog Htries tr'. split.
  - unfold get_next_requests. rewrite bind_self. cbn [fst].
    rewrite Hs. cbn [truthy Truthy_list].
    erewrite bind_Ok by (eapply _connect_consumer_connected; eassumption).
    cbn [negb]. rewrite bind_self. cbn [fst].
    erewrite bind_Ok
      by (apply world_eq, (poll_loop_idle b max_n []
                             (Z.to_nat (_comm_tries b))); auto; lia).
    reflexivity.
  - subst tr'. rewrite count_app, count_empty_polls. lia.
Qed.

(** C5. With a connected producer, a wait that is not negative, and a
    broker that refuses every send with a [BrokerResponseError],
    [page_crawled] makes exactly [_comm_tries] send attempts, each
    followed by a warning and a sleep of that wait, and the
    [_send_message] it runs returns [False]. *)
Theorem page_crawled_sends_comm_tries (b : Backend) (tr : trace) (h : nat)
    (response_url : pyobj) (links_urls : list pyobj) :
  _prod b = Some h ->
  (forall i, send_messages broker i = Some BrokerResponseError) ->
  has_level "warning" (_manager b) ->
  (0 <= _wait_time b)%Q ->
  0 <= _comm_tries b ->
  let obj := PyDict [("url", response_url); ("links", PyList links_urls)] in
  let tr' := failed_sends b (encode obj) 0 (Z.to_nat (_comm_tries b)) ++ tr in
  page_crawled broker response_url links_urls (b, tr) = (Ok tt, (b, tr'))
  /\ _send_message broker obj (b, tr) = (Ok false, (b, tr'))
  /\ Z.of_nat (count is_send tr')
     = Z.of_nat (count is_send tr) + _comm_tries b.
Proof.
  intros Hp Hbroker Hlog Hwait Htries obj tr'.
  assert (Hsend : _send_message broker obj (b, tr) = (Ok false, (b, tr'))).
  { unfold _send_message.
    erewrite bind_Ok by (eapply _connect_producer_connected; eassumption).
    cbv beta iota. rewrite bind_self. cbn [fst].
    apply world_eq, send_loop_refused; auto; lia. }
  repeat split.
  - unfold page_crawled. fold obj. erewrite bind_Ok by exact Hsend.
    reflexivity.
  - exact Hsend.
  - subst tr'. rewrite count_app, count_failed_sends. lia.
Qed.

End Retry.

(** ** Messages from the topic *)

Section Messages.

Context (broker : Broker) {codec : Codec}.

Lemma getitem_raises obj key e :
  getitem obj key = Raise e -> is_KeyError_or_TypeError e = true.
Proof.
  destruct obj; cbn; try (intros [= <-]; reflexivity).
  induction d as [|[k v] d IH]; cbn.
  - intros [= <-]. reflexivity.
  - destruct (String.eqb k key); [discriminate|exact IH].
Qed.

(** One message whose payload decodes or is rejected with [ValueError]:
    its URL is appended, or it is dropped with a warning; either way
    [success] is set and the loop goes on. *)
Lemma process_message_spec b value urls success tr :
  has_level "warning" (_manager b) ->
  decodes_or_is_invalid value = true ->
  process_message b value (urls, success) tr
  = (Ok (urls ++ kept_urls [value], true), discard_log b value ++ tr).
Proof.
  intros Hlog Hplain.
  unfold process_message, kept_urls, url_field, discard_log.
  unfold decodes_or_is_invalid in Hplain.
  cbn [flat_map fst]. unfold try_except, bind at 1, lift at 1.
  destruct (decoder_decode value) as [obj|e].
  - unfold bind at 1, lift. destruct (getitem obj "url") as [url|e] eqn:Hget.
    + rewrite app_nil_r. reflexivity.
    + rewrite (getitem_raises _ _ _ Hget).
      erewrite bind_Ok by (apply log_Ok; assumption).
      rewrite !app_nil_r. reflexivity.
  - rewrite Hplain. erewrite bind_Ok by (apply log_Ok; assumption).
    rewrite !app_nil_r. reflexivity.
Qed.

(** One message whose decoding raises anything else: the exception leaves
    the loop body, with nothing logged. *)
Lemma process_message_raises b value vars tr e :
  decoder_decode value = Raise e ->
  is_ValueError e = false ->
  process_message b value vars tr = (Raise e, tr).
Proof.
  intros Hd He. unfold process_message, try_except, bind at 1, lift at 1.
  rewrite Hd, He. reflexivity.
Qed.

Lemma kept_urls_cons value batch :
  kept_urls (value :: batch) = kept_urls [value] ++ kept_urls batch.
Proof. unfold kept_urls. cbn [flat_map]. rewrite app_nil_r. reflexivity. Qed.

Lemma for_each_process_message b batch urls success tr :
  has_level "warning" (_manager b) ->
  forallb decodes_or_is_invalid batch = true ->
  for_each (process_message b) batch (urls, success) tr
  = (Ok (urls ++ kept_urls batch, success || truthy batch),
     batch_log b batch ++ tr).
Proof.
  intros Hlog. revert urls success tr.
  induction batch as [|value batch IH]; intros urls success tr Hplain.
  - cbn. rewrite app_nil_r, orb_false_r. reflexivity.
  - cbn [forallb] in Hplain. apply andb_prop in Hplain as [Hvalue Hbatch].
    cbn [for_each].
    erewrite bind_Ok by (apply process_message_spec; assumption).
    rewrite IH by exact Hbatch. rewrite (kept_urls_cons value batch).
    cbn [batch_log truthy Truthy_list orb].
    rewrite orb_true_r, !app_assoc. reflexivity.
Qed.

(** A batch with a message whose decoding raises something other than
    [ValueError]: the messages before it are processed, and the exception
    leaves the loop. *)
Lemma for_each_process_message_raises b before value after urls success tr e :
  has_level "warning" (_manager b) ->
  forallb decodes_or_is_invalid before = true ->
  decoder_decode value = Raise e ->
  is_ValueError e = false ->
  for_each (process_message b) (before ++ value :: after) (urls, success) tr
  = (Raise e, batch_log b before ++ tr).
Proof.
  intros Hlog Hplain Hd He. revert urls success tr Hplain.
  induction before as [|v before IH]; intros urls success tr Hplain.
  - cbn [app for_each batch_log]. unfold bind.
    rewrite (process_message_raises b value (urls, success) tr e Hd He).
    reflexivity.
  - cbn [forallb] in Hplain. apply andb_prop in Hplain as [Hv Hbefore].
    cbn [app for_each batch_log].
    erewrite bind_Ok by (apply process_message_spec; assumption).
    rewrite IH by exact Hbefore. rewrite app_assoc. reflexivity.
Qed.

(** A round whose poll brings messages: all of them are processed, and
    nothing is counted as a failure. *)
Lemma poll_round_batch b max_n urls success fails tr batch :
  has_level "warning" (_manager b) ->
  get_messages broker (count is_poll tr) max_n = batch ->
  batch <> [] ->
  forallb decodes_or_is_invalid batch = true ->
  poll_round broker b max_n urls success fails tr
  = (Ok (urls ++ kept_urls batch, true, fails),
     batch_log b batch ++ EvGetMessages max_n (_wait_time b) :: tr).
Proof.
  intros Hlog Hbatch Hne Hplain.
  unfold poll_round, bind at 1, cons_get_messages. rewrite Hbatch.
  erewrite bind_Ok by (apply for_each_process_message; assumption).
  cbn [fst snd]. destruct batch; [contradiction|].
  cbn [truthy Truthy_list]. rewrite orb_true_r. reflexivity.
Qed.

(** A poll that brings messages ends the loop. *)
Lemma poll_loop_batch b max_n urls fails tr batch :
  has_level "warning" (_manager b) ->
  fails < _comm_tries b ->
  get_messages broker (count is_poll tr) max_n = batch ->
  batch <> [] ->
  forallb decodes_or_is_invalid batch = true ->
  poll_loop broker b max_n urls false fails tr
  = (Ok (urls ++ kept_urls batch),
     batch_log b batch ++ EvGetMessages max_n (_wait_time b) :: tr).
Proof.
  intros Hlog Hlt Hbatch Hne Hplain. rewrite poll_loop_while.
  cbn [negb andb].
  destruct (Z.ltb_spec fails (_comm_tries b)); [|lia].
  rewrite (poll_round_batch b max_n urls false fails tr batch) by assumption.
  rewrite poll_loop_while. reflexivity.
Qed.

(** [k] polls that bring nothing and then one that brings a batch. *)
Lemma poll_loop_late b max_n urls (k : nat) fails tr batch :
  (forall j, (j < k)%nat ->
     get_messages broker (count is_poll tr + j) max_n = []) ->
  get_messages broker (count is_poll tr + k) max_n = batch ->
  batch <> [] ->
  forallb decodes_or_is_invalid batch = true ->
  has_level "warning" (_manager b) ->
  fails + Z.of_nat k < _comm_tries b ->
  poll_loop broker b max_n urls false fails tr
  = (Ok (urls ++ kept_urls batch),
     batch_log b batch
     ++ EvGetMessages max_n (_wait_time b)
     :: empty_polls b max_n fails k ++ tr).
Proof.
  intros Hempty Hbatch Hne Hplain Hlog. revert fails tr Hempty Hbatch.
  induction k as [|k IH]; intros fails tr Hempty Hbatch Hk.
  - rewrite Nat.add_0_r in Hbatch.
    apply poll_loop_batch; auto. lia.
  - rewrite poll_loop_while. cbn [negb andb].
    destruct (Z.ltb_spec fails (_comm_tries b)); [|lia].
    rewrite poll_round_empty
      by (try exact Hlog; rewrite <- (Nat.add_0_r (count is_poll tr));
          apply Hempty; lia).
    rewrite IH.
    + cbn [empty_polls]. rewrite <- app_assoc. reflexivity.
    + intros j Hj. rewrite !count_cons. cbn [is_poll].
      replace (0 + (1 + count is_poll tr) + j)%nat
        with (count is_poll tr + S j)%nat by lia.
      apply Hempty. lia.
    + rewrite !count_cons. cbn [is_poll].
      replace (0 + (1 + count is_poll tr) + k)%nat
        with (count is_poll tr + S k)%nat by lia.
      exact Hbatch.
    + lia.
Qed.

(** A poll that brings a message whose decoding raises something other
    than [ValueError] ends the loop with that exception. *)
Lemma poll_loop_batch_raises b max_n urls fails tr before value after e :
  has_level "warning" (_manager b) ->
  fails < _comm_tries b ->
  get_messages broker (count is_poll tr) max_n = before ++ value :: after ->
  forallb decodes_or_is_invalid before = true ->
  decoder_decode value = Raise e ->
  is_ValueError e = false ->
  poll_loop broker b max_n urls false fails tr
  = (Raise e,
     batch_log b before ++ EvGetMessages max_n (_wait_time b) :: tr).
Proof.
  intros Hlog Hlt Hbatch Hplain Hd He. rewrite poll_loop_while.
  cbn [negb andb].
  destruct (Z.ltb_spec fails (_comm_tries b)); [|lia].
  unfold poll_round, bind at 1, cons_get_messages. rewrite Hbatch.
  unfold bind.
  rewrite (for_each_process_message_raises b before value after urls false
             _ e Hlog Hplain Hd He).
  reflexivity.
Qed.

Lemma kept_or_logged b batch :
  forallb decodes_or_is_invalid batch = true ->
  (length (kept_urls batch) + length (batch_log b batch))%nat = length batch.
Proof.
  induction batch as [|value batch IH]; intros Hplain; [reflexivity|].
  cbn [forallb] in Hplain. apply andb_prop in Hplain as [Hvalue Hbatch].
  specialize (IH Hbatch).
  rewrite (kept_urls_cons value batch). cbn [batch_log length].
  rewrite !length_app.
  enough (length (kept_urls [value]) + length (discard_log b value) = 1)%nat
    by lia.
  unfold kept_urls, url_field, discard_log. cbn [flat_map].
  unfold decodes_or_is_invalid in Hvalue.
  destruct (decoder_decode value) as [obj|e].
  - destruct (getitem obj "url"); reflexivity.
  - rewrite Hvalue. reflexivity.
Qed.

End Messages.

Section NextRequests.

Context (broker : Broker) {codec : Codec}.

Lemma kept_urls_In batch url :
  In url (kept_urls batch) ->
  exists value, In value batch /\ url_field value = Ok url.
Proof.
  unfold kept_urls. rewrite in_flat_map. intros (value & Hin & Hurl).
  exists value. split; [exact Hin|].
  destruct (url_field value) as [u|e]; [|contradiction].
  destruct Hurl as [->|[]]. reflexivity.
Qed.

Lemma process_message_urls b value urls success tr urls' success' tr' :
  process_message b value (urls, success) tr = (Ok (urls', success'), tr') ->
  exists new, urls' = urls ++ new
              /\ Forall (fun url => url_field value = Ok url) new.
Proof.
  unfold process_message, url_field. cbn [fst].
  unfold try_except, bind, lift, log, emit, raise, ret.
  destruct (decoder_decode value) as [obj|x].
  - destruct (getitem obj "url") as [url|e] eqn:Hget.
    + intros [= <- _ _]. exists [url].
      split; [reflexivity|]. repeat constructor.
    + rewrite (getitem_raises _ _ _ Hget).
      destruct (existsb _ _); cbn; [|discriminate].
      intros [= <- _ _]. exists []. rewrite app_nil_r. split; constructor.
  - destruct (is_ValueError x); [|discriminate].
    destruct (existsb _ _); cbn; [|discriminate].
    intros [= <- _ _]. exists []. rewrite app_nil_r. split; constructor.
Qed.

Lemma for_each_urls b batch urls success tr urls' success' tr' :
  for_each (process_message b) batch (urls, success) tr
  = (Ok (urls', success'), tr') ->
  exists new, urls' = urls ++ new
              /\ Forall (fun url => exists value,
                            In value batch /\ url_field value = Ok url) new.
Proof.
  revert urls success tr. induction batch as [|value batch IH];
    intros urls success tr; cbn [for_each].
  - intros [= <- _ _]. exists []. rewrite app_nil_r. split; constructor.
  - unfold bind.
    destruct (process_message b value (urls, success) tr)
      as [[[urls1 success1]|e] tr1] eqn:H1; [|discriminate].
    intros H2. apply process_message_urls in H1 as (new1 & -> & Hnew1).
    apply IH in H2 as (new2 & -> & Hnew2).
    exists (new1 ++ new2). rewrite app_assoc. split; [reflexivity|].
    apply Forall_app. split.
    + eapply Forall_impl; [|exact Hnew1]. cbn. intros url Hu.
      exists value. auto.
    + eapply Forall_impl; [|exact Hnew2]. cbn. intros url (v & Hv & Hu).
      exists v. auto.
Qed.

Lemma poll_round_urls b max_n urls success fails tr urls' success' fails' tr' :
  poll_round broker b max_n urls success fails tr
  = (Ok (urls', success', fails'), tr') ->
  exists new, urls' = urls ++ new /\ Forall (from_topic broker) new.
Proof.
  unfold poll_round, bind at 1, cons_get_messages. unfold bind at 1.
  destruct (for_each _ _ _ _) as [[[urls1 success1]|e] tr1] eqn:H1;
    [|discriminate].
  apply for_each_urls in H1 as (new & -> & Hnew). cbn [fst snd].
  intros H2. exists new. split.
  - destruct success1; cbn [negb] in H2.
    + injection H2 as <- _ _ _. reflexivity.
    + unfold bind, ret in H2. destruct (log _ _ _ _) as [[[]|e] t0];
        [|discriminate]. injection H2 as <- _ _ _. reflexivity.
  - eapply Forall_impl; [|exact Hnew]. cbn. intros url (v & Hv & Hu).
    exists (count is_poll tr), max_n, v. auto.
Qed.

Lemma poll_loop_urls b max_n urls success fails tr urls' tr' :
  poll_loop broker b max_n urls success fails tr = (Ok urls', tr') ->
  exists new, urls' = urls ++ new /\ Forall (from_topic broker) new.
Proof.
  funelim (poll_loop broker b max_n urls success fails tr).
  - intros [= <- _]. exists []. rewrite app_nil_r. split; constructor.
  - intros [= <- _]. exists []. rewrite app_nil_r. split; constructor.
  - intros Hrun.
    match goal with
    | IH : context [from_topic] |- _ =>
        apply IH in Hrun as (new2 & -> & Hnew2)
    end.
    destruct (poll_round_urls _ _ _ _ _ _ _ _ _ _ Heq) as (new1 & Hurls & Hnew1).
    exists (new1 ++ new2). rewrite app_assoc, <- Hurls. split; [reflexivity|].
    apply Forall_app. auto.
  - discriminate.
Qed.

(** C6, as the code has it. When a poll brings a batch of payloads that
    the decoder decodes or rejects with [ValueError], every message of the
    batch is processed: a message that is rejected, or that decodes to
    something that is not an object with a [url] key, is dropped with one
    warning of its own, and the [url] entry of every other message,
    whatever its type, is kept, in arrival order; this holds in whichever
    round of the loop the batch arrives, and [get_next_requests] returns
    the kept entries as requests. *)
Theorem malformed_messages_dropped_one_by_one (b : Backend) (tr : trace)
    (h : nat) (max_n : Z) (batch : list (option string)) :
  _seeds b = [] ->
  _cons b = Some h ->
  0 < _comm_tries b ->
  has_level "warning" (_manager b) ->
  get_messages broker (count is_poll tr) max_n = batch ->
  batch <> [] ->
  forallb decodes_or_is_invalid batch = true ->
  (forall urls fails,
     poll_round broker b max_n urls false fails tr
     = (Ok (urls ++ kept_urls batch, true, fails),
        batch_log b batch ++ EvGetMessages max_n (_wait_time b) :: tr))
  /\ get_next_requests broker max_n (b, tr)
     = (Ok (map Request (kept_urls batch)),
        (b, batch_log b batch ++ EvGetMessages max_n (_wait_time b) :: tr))
  /\ (length (kept_urls batch) + length (batch_log b batch))%nat
     = length batch.
Proof.
  intros Hs Hc Htries Hlog Hbatch Hne Hplain.
  split; [|split; [|apply kept_or_logged; exact Hplain]].
  - intros urls fails. apply poll_round_batch; assumption.
  - unfold get_next_requests. rewrite bind_self. cbn [fst].
    rewrite Hs. cbn [truthy Truthy_list].
    erewrite bind_Ok by (eapply _connect_consumer_connected; eassumption).
    cbn [negb]. rewrite bind_self. cbn [fst].
    erewrite bind_Ok
      by (apply world_eq, (poll_loop_batch broker b max_n [] 0 tr batch);
          auto).
    reflexivity.
Qed.

(** C7. A call that finds the seed buffer non-empty returns its first
    [max_n] items, leaves the others in the buffer, and leaves the world as
    it was: no connection attempt, no poll, no log. *)
Theorem seeds_served_without_broker (b : Backend) (tr : trace) (max_n : Z) :
  _seeds b <> [] ->
  0 <= max_n ->
  get_next_requests broker max_n (b, tr)
  = (Ok (firstn (Z.to_nat max_n) (_seeds b)),
     (set_seeds (skipn (Z.to_nat max_n) (_seeds b)) b, tr))
  /\ Z.of_nat (length (firstn (Z.to_nat max_n) (_seeds b))) <= max_n.
Proof.
  intros Hne Hn. split.
  - rewrite get_next_requests_seeds by exact Hne. cbv zeta.
    rewrite slice_to_min, slice_from_min by exact Hn. reflexivity.
  - rewrite length_firstn. lia.
Qed.

(** C8. With an empty seed buffer, no consumer, and a broker that answers
    the connection attempt with a [BrokerResponseError],
    [_connect_consumer] returns [False] and [get_next_requests] returns
    the empty list, after one warning each; neither raises. *)
Theorem consumer_refused_returns_nothing (b : Backend) (tr : trace)
    (max_n : Z) :
  _seeds b = [] ->
  _cons b = None ->
  simple_consumer broker (count is_new_consumer tr) = Some BrokerResponseError ->
  has_level "warning" (_manager b) ->
  let attempt :=
    EvLog "warning" CouldNotConnectConsumer
    :: EvSimpleConsumer (_group b) (_topic_todo b) :: tr in
  _connect_consumer broker (b, tr) = (Ok false, (b, attempt))
  /\ get_next_requests broker max_n (b, tr)
     = (Ok [],
        (b, EvLog "warning" (CouldNotConnectConsumerTo (_topic_todo b))
            :: attempt)).
Proof.
  intros Hs Hc Hbroker Hlog attempt. split.
  - apply _connect_consumer_refused; assumption.
  - apply get_next_requests_unreachable; assumption.
Qed.

(** C10. A call that finds seeds returns exactly the front of the buffer,
    the very objects that were added and nothing around them: seeds added
    to an empty buffer come back as they were passed, the first
    [max_n_requests] of them. Whatever a call that finds the buffer empty
    returns is [Request(url)] for URLs read from messages of the topic;
    and when, after [k] polls that bring nothing, a poll brings a batch of
    payloads that the decoder decodes or rejects with [ValueError], the
    call returns [Request(url)] for every [url] entry of the batch, in
    arrival order. *)
Theorem seeds_as_is_urls_as_requests (b : Backend) (tr : trace) (h : nat)
    (max_n : Z) (seeds : list pyobj) (k : nat)
    (batch : list (option string)) :
  has_level "warning" (_manager b) ->
  (_seeds b <> [] ->
   let n := Z.min (Z.of_nat (length (_seeds b))) max_n in
   get_next_requests broker max_n (b, tr)
   = (Ok (slice_to (_seeds b) n), (set_seeds (slice_from (_seeds b) n) b, tr)))
  /\ (_seeds b = [] -> seeds <> [] -> 0 <= max_n ->
      (add_seeds seeds ;; get_next_requests broker max_n) (b, tr)
      = (Ok (firstn (Z.to_nat max_n) seeds),
         (set_seeds (skipn (Z.to_nat max_n) seeds) b, tr)))
  /\ (_seeds b = [] ->
      forall requests s',
        get_next_requests broker max_n (b, tr) = (Ok requests, s') ->
        exists urls,
          requests = map Request urls /\ Forall (from_topic broker) urls)
  /\ (_seeds b = [] -> _cons b = Some h ->
      (forall j, (j < k)%nat ->
         get_messages broker (count is_poll tr + j) max_n = []) ->
      get_messages broker (count is_poll tr + k) max_n = batch ->
      batch <> [] ->
      forallb decodes_or_is_invalid batch = true ->
      Z.of_nat k < _comm_tries b ->
      get_next_requests broker max_n (b, tr)
      = (Ok (map Request (kept_urls batch)),
         (b, batch_log b batch
             ++ EvGetMessages max_n (_wait_time b)
             :: empty_polls b max_n 0 k ++ tr))).
Proof.
  intros Hlog. split; [|split; [|split]].
  - intros Hne n. apply get_next_requests_seeds. exact Hne.
  - intros Hs Hne Hn. erewrite bind_Ok by reflexivity. cbn [fst snd].
    rewrite Hs. cbn [app].
    rewrite get_next_requests_seeds by exact Hne. cbv zeta.
    cbn [_seeds set_seeds].
    rewrite slice_to_min, slice_from_min by exact Hn. reflexivity.
  - intros Hs requests s'.
    unfold get_next_requests. rewrite bind_self. cbn [fst].
    rewrite Hs. cbn [truthy Truthy_list]. unfold bind at 1.
    destruct (_connect_consumer broker (b, tr))
      as [[connected|e] [b1 tr1]]; [|discriminate].
    destruct connected; cbn [negb].
    + rewrite bind_self. unfold bind, world, ret. cbn [fst snd].
      destruct (poll_loop broker b1 max_n [] false 0 tr1)
        as [[urls|e] tr2] eqn:Hrun; [|discriminate].
      intros [= <- _]. apply poll_loop_urls in Hrun as (new & -> & Hnew).
      exists new. auto.
    + unfold bind, world, ret. cbn [fst snd].
      destruct (log _ _ _ _) as [[[]|e] t0]; [|discriminate].
      intros [= <- _]. exists []. split; constructor.
  - intros Hs Hc Hempty Hbatch Hne Hplain Hk.
    unfold get_next_requests. rewrite bind_self. cbn [fst].
    rewrite Hs. cbn [truthy Truthy_list].
    erewrite bind_Ok by (eapply _connect_consumer_connected; eassumption).
    cbn [negb]. rewrite bind_self. cbn [fst].
    erewrite bind_Ok
      by (apply world_eq, (poll_loop_late broker b max_n [] k 0 tr batch);
          auto).
    reflexivity.
Qed.

End NextRequests.

(** ** Construction and shutdown *)

Section Lifecycle.

Context (broker : Broker).

Lemma py_or_None {A} `{Truthy A} (d : A) : py_or None d = d.
Proof. reflexivity. Qed.

Lemma py_or_truthy {A} `{Truthy A} (v d : A) :
  truthy v = true -> py_or (Some v) d = v.
Proof. unfold py_or. intros ->. reflexivity. Qed.

Lemma py_or_falsy {A} `{Truthy A} (v d : A) :
  truthy v = false -> py_or (Some v) d = d.
Proof. unfold py_or. intros ->. reflexivity. Qed.

(** Connecting changes nothing of the object but the handle. *)
Lemma _connect_consumer_keeps b tr r b' tr' :
  _connect_consumer broker (b, tr) = (r, (b', tr')) ->
  b' = set_cons (_cons b') b.
Proof.
  unfold _connect_consumer. rewrite bind_self. cbn [fst].
  destruct (_cons b) eqn:Hc.
  - intros [= _ <- _]. symmetry. apply set_cons_same.
  - unfold try_except, bind, world, update, ret, SimpleConsumer, call, log,
      emit, raise. cbn [fst snd].
    destruct (simple_consumer broker _) as [e|]; cbn [fst snd].
    + destruct (is_BrokerResponseError e); cbn [fst snd].
      * destruct (existsb _ _); intros [= _ <- _]; reflexivity.
      * intros [= _ <- _]. symmetry. apply set_cons_same.
    + intros [= _ <- _]. reflexivity.
Qed.

Lemma _connect_producer_keeps b tr r b' tr' :
  _connect_producer broker (b, tr) = (r, (b', tr')) ->
  b' = set_prod (_prod b') b.
Proof.
  unfold _connect_producer. rewrite bind_self. cbn [fst].
  destruct (_prod b) eqn:Hp.
  - intros [= _ <- _]. symmetry. apply set_prod_same.
  - unfold try_except, bind, world, update, ret, SimpleProducer, call, log,
      emit, raise. cbn [fst snd].
    destruct (simple_producer broker _) as [e|]; cbn [fst snd].
    + destruct (is_BrokerResponseError e); cbn [fst snd].
      * destruct (existsb _ _); intros [= _ <- _]; reflexivity.
      * intros [= _ <- _]. symmetry. apply set_prod_same.
    + intros [= _ <- _]. reflexivity.
Qed.

(** What the constructor stores for each keyword argument. *)
Lemma __init___config manager server group topic_todo topic_done wait_time
    comm_tries tr b tr' :
  __init__ broker manager server group topic_todo topic_done wait_time
    comm_tries tr = (Ok b, tr') ->
  _server b = py_or server DEFAULT_SERVER
  /\ _group b = py_or group DEFAULT_GROUP
  /\ _topic_todo b = py_or topic_todo DEFAULT_TOPIC_TODO
  /\ _topic_done b = py_or topic_done DEFAULT_TOPIC_DONE
  /\ _wait_time b = py_or wait_time DEFAULT_WAIT_TIME
  /\ _comm_tries b = py_or comm_tries DEFAULT_COMM_TRIES
  /\ _seeds b = [].
Proof.
  unfold __init__. unfold bind at 1.
  destruct (try_except _ _ _ tr) as [[[]|e] tr1]; [|discriminate].
  unfold bind.
  destruct (_connect_consumer broker _) as [[connected|e] [b1 tr2]] eqn:H1;
    [|discriminate].
  destruct (_connect_producer broker _) as [[connected'|e] [b2 tr3]] eqn:H2;
    [|discriminate].
  intros [= <- _].
  apply _connect_consumer_keeps in H1. apply _connect_producer_keeps in H2.
  rewrite H2, H1. cbn. repeat split; reflexivity.
Qed.

Lemma frontier_stop_connected b tr h :
  _prod b = Some h ->
  frontier_stop (b, tr) = (Ok tt, (b, EvProducerStop :: tr)).
Proof.
  intros Hp. unfold frontier_stop. rewrite bind_self. cbn [fst].
  rewrite Hp. reflexivity.
Qed.

Lemma frontier_stop_unconnected b tr :
  _prod b = None -> frontier_stop (b, tr) = (Raise AttributeError, (b, tr)).
Proof.
  intros Hp. unfold frontier_stop. rewrite bind_self. cbn [fst].
  rewrite Hp. reflexivity.
Qed.

(** C3, at the failing input. Constructing with [wait_time = 0] stores the
    default wait of one second, not zero: [0 or DEFAULT_WAIT_TIME] is the
    default. *)
Theorem zero_wait_time_becomes_default manager server group topic_todo
    topic_done comm_tries tr b tr' :
  __init__ broker manager server group topic_todo topic_done (Some 0%Q)
    comm_tries tr = (Ok b, tr') ->
  _wait_time b = DEFAULT_WAIT_TIME /\ ~ (_wait_time b == 0)%Q.
Proof.
  intros Hinit. apply __init___config in Hinit.
  destruct Hinit as (_ & _ & _ & _ & Hwait & _).
  rewrite Hwait. split; [reflexivity|]. cbn. discriminate.
Qed.

End Lifecycle.

(** C2, at the failing input. An object constructed while the broker
    refuses the producer has no producer; [frontier_start] then returns,
    and [frontier_stop] raises [AttributeError], whatever came before. *)
Theorem stop_raises_without_producer :
  exists b tr tr',
    __init__ Examples.unreachable (Some Examples.manager)
      None None None None None None [] = (Ok b, tr)
    /\ _prod b = None
    /\ frontier_start Examples.unreachable (b, tr) = (Ok tt, (b, tr'))
    /\ frontier_stop (b, tr') = (Raise AttributeError, (b, tr')).
Proof.
  eexists. eexists. eexists.
  split; [vm_compute; reflexivity|].
  split; [reflexivity|].
  split; [vm_compute; reflexivity|].
  reflexivity.
Qed.

(** ** The theorems at concrete inputs *)

Module Witness.

Import Examples.

#[local] Existing Instance table.

(** Seeds [a; b] and [c] are added, then two calls ask for two items each,
    then one more call asks for one. *)
Lemma seed_buffer_fifo_witness :
  exists results rest tr1 later rest' tr2,
    (add_seeds_all [[a; b]; [c]] ;; get_next_requests_all unreachable [2; 2])
      (unconnected, [])
    = (Ok results, (set_seeds rest unconnected, tr1))
    /\ Forall2 (fun n r => Z.of_nat (length r) <= n) [2; 2] results
    /\ concat results ++ rest = concat [[a; b]; [c]]
    /\ (Z.of_nat (length (concat [[a; b]; [c]])) <= sum [2; 2] ->
        concat results = concat [[a; b]; [c]])
    /\ get_next_requests_all unreachable [1] (set_seeds rest unconnected, tr1)
       = (Ok later, (set_seeds rest' unconnected, tr2))
    /\ concat results ++ concat later ++ rest' = concat [[a; b]; [c]].
Proof.
  apply (seed_buffer_fifo unreachable unconnected [] [[a; b]; [c]] [2; 2] [1]).
  - reflexivity.
  - reflexivity.
  - intros i. reflexivity.
  - reflexivity.
  - repeat constructor; lia.
Defined.

(** Three tries, no wait, an idle topic: three polls, nothing returned. *)
Lemma idle_topic_polls_comm_tries_witness :
  get_next_requests idle 10 (connected, [])
  = (Ok [],
     (connected,
      [EvLog "warning" (TimedOut 0 10 3 3); EvGetMessages 10 0;
       EvLog "warning" (TimedOut 0 10 2 3); EvGetMessages 10 0;
       EvLog "warning" (TimedOut 0 10 1 3); EvGetMessages 10 0]))
  /\ Z.of_nat
       (count is_poll
          [EvLog "warning" (TimedOut 0 10 3 3); EvGetMessages 10 0;
           EvLog "warning" (TimedOut 0 10 2 3); EvGetMessages 10 0;
           EvLog "warning" (TimedOut 0 10 1 3); EvGetMessages 10 0])
     = Z.of_nat (count is_poll []) + 3.
Proof.
  apply (idle_topic_polls_comm_tries idle connected [] 1%nat 10).
  - reflexivity.
  - reflexivity.
  - intros i c. reflexivity.
  - reflexivity.
  - cbn. lia.
Defined.

(** Three tries and a broker that refuses every send: three sends. *)
Lemma page_crawled_sends_comm_tries_witness :
  let obj := PyDict [("url", a); ("links", PyList [b; c])] in
  let tr' := failed_sends connected (encode obj) 0 3 in
  page_crawled idle a [b; c] (connected, []) = (Ok tt, (connected, tr'))
  /\ _send_message idle obj (connected, []) = (Ok false, (connected, tr'))
  /\ Z.of_nat (count is_send tr') = Z.of_nat (count is_send []) + 3.
Proof.
  apply (page_crawled_sends_comm_tries idle connected [] 1%nat a [b; c]).
  - reflexivity.
  - intros i. reflexivity.
  - reflexivity.
  - unfold Qle. cbn. lia.
  - cbn. lia.
Defined.

(** A batch of one well-formed message and one without [url]: one
    request, one warning. *)
Lemma malformed_messages_dropped_one_by_one_witness :
  (forall urls fails,
     poll_round (delivering [good; no_url]) connected 10 urls false fails []
     = (Ok (urls ++ [a], true, fails),
        [EvLog "warning" CouldNotGetUrl; EvGetMessages 10 0]))
  /\ get_next_requests (delivering [good; no_url]) 10 (connected, [])
     = (Ok [Request a],
        (connected, [EvLog "warning" CouldNotGetUrl; EvGetMessages 10 0]))
  /\ (length [a] + length [EvLog "warning" CouldNotGetUrl])%nat
     = length [good; no_url].
Proof.
  assert (Htries : 0 < _comm_tries connected) by (cbn; lia).
  assert (Hbatch : [good; no_url] <> []) by discriminate.
  exact (malformed_messages_dropped_one_by_one (delivering [good; no_url])
           connected [] 1%nat 10 [good; no_url]
           eq_refl eq_refl Htries eq_refl eq_refl Hbatch eq_refl).
Defined.

(** Seeds [a; b; c] and a call for two: [a; b], with [c] left, and the
    world untouched. *)
Lemma seeds_served_without_broker_witness :
  get_next_requests (delivering [good]) 2
    (set_seeds [a; b; c] connected, [])
  = (Ok [a; b], (set_seeds [c] connected, []))
  /\ Z.of_nat (length [a; b]) <= 2.
Proof.
  apply (seeds_served_without_broker (delivering [good])
           (set_seeds [a; b; c] connected) [] 2).
  - discriminate.
  - lia.
Defined.

Lemma consumer_refused_returns_nothing_witness :
  let attempt :=
    [EvLog "warning" CouldNotConnectConsumer;
     EvSimpleConsumer DEFAULT_GROUP DEFAULT_TOPIC_TODO] in
  _connect_consumer unreachable (unconnected, [])
  = (Ok false, (unconnected, attempt))
  /\ get_next_requests unreachable 10 (unconnected, [])
     = (Ok [],
        (unconnected,
         EvLog "warning" (CouldNotConnectConsumerTo DEFAULT_TOPIC_TODO)
         :: attempt)).
Proof.
  apply (consumer_refused_returns_nothing unreachable unconnected [] 10).
  - reflexivity.
  - reflexivity.
  - reflexivity.
  - reflexivity.
Defined.

(** The seeds come back as the strings they are, added before the call
    or found in the buffer; the [url] entries of the messages that the
    third poll brings, a string and a number, come back inside
    requests. *)
Lemma seeds_as_is_urls_as_requests_witness :
  get_next_requests (flaky 2 [good; int_url]) 2
    (set_seeds [a; b; c] connected, [])
  = (Ok [a; b], (set_seeds [c] connected, []))
  /\ (add_seeds [a; b; c] ;; get_next_requests (flaky 2 [good; int_url]) 2)
       (connected, [])
     = (Ok [a; b], (set_seeds [c] connected, []))
  /\ get_next_requests (flaky 2 [good; int_url]) 2 (connected, [])
     = (Ok [Request a; Request (PyInt 5)],
        (connected,
         [EvGetMessages 2 0;
          EvLog "warning" (TimedOut 0 2 2 3); EvGetMessages 2 0;
          EvLog "warning" (TimedOut 0 2 1 3); EvGetMessages 2 0])).
Proof.
  assert (Htries : Z.of_nat 2 < _comm_tries connected) by (cbn; lia).
  assert (Hn : 0 <= 2) by lia.
  assert (Hseeds : [a; b; c] <> []) by discriminate.
  assert (Hbatch : [good; int_url] <> []) by discriminate.
  assert (Hempty : forall j, (j < 2)%nat ->
            get_messages (flaky 2 [good; int_url]) (count is_poll [] + j) 2
            = [])
    by (intros [|[|j]] Hj; [reflexivity | reflexivity | cbn in Hj; lia]).
  split; [|split].
  - exact (proj1 (seeds_as_is_urls_as_requests (flaky 2 [good; int_url])
                    (set_seeds [a; b; c] connected) [] 1%nat 2
                    [a; b; c] 2%nat [good; int_url] eq_refl) Hseeds).
  - exact (proj1 (proj2 (seeds_as_is_urls_as_requests
                           (flaky 2 [good; int_url]) connected [] 1%nat 2
                           [a; b; c] 2%nat [good; int_url] eq_refl))
             eq_refl Hseeds Hn).
  - exact (proj2 (proj2 (proj2 (seeds_as_is_urls_as_requests
                                  (flaky 2 [good; int_url]) connected []
                                  1%nat 2 [a; b; c] 2%nat [good; int_url]
                                  eq_refl)))
             eq_refl eq_refl Hempty eq_refl Hbatch eq_refl Htries).
Defined.

Lemma zero_wait_time_becomes_default_witness :
  let b := mkBackend TestManager [] DEFAULT_SERVER DEFAULT_TOPIC_TODO
             DEFAULT_TOPIC_DONE DEFAULT_GROUP 1 5 (Some 1%nat) (Some 1%nat) in
  _wait_time b = DEFAULT_WAIT_TIME /\ ~ (_wait_time b == 0)%Q.
Proof.
  apply (zero_wait_time_becomes_default idle None None None None None None []
           _ [EvSimpleProducer;
              EvSimpleConsumer DEFAULT_GROUP DEFAULT_TOPIC_TODO;
              EvKafkaClient DEFAULT_SERVER]).
  reflexivity.
Defined.

(** C8, as the spec has it, fails: a consumer that cannot be connected
    because its constructor raises [KafkaUnavailableError] makes
    [get_next_requests] raise that exception to the caller. *)
Lemma unavailable_consumer_is_thrown :
  get_next_requests unavailable 10 (unconnected, [])
  = (Raise KafkaUnavailableError,
     (unconnected, [EvSimpleConsumer DEFAULT_GROUP DEFAULT_TOPIC_TODO]))
  /\ fst (get_next_requests unavailable 10 (unconnected, [])) <> Ok [].
Proof.
  split.
  - vm_compute. reflexivity.
  - vm_compute. discriminate.
Qed.

(** C6, as the spec has it, fails: a message whose [url] is the number 5
    lacks a string [url], and is not dropped but becomes a request. *)
Lemma number_url_becomes_request :
  get_next_requests (delivering [int_url]) 10 (connected, [])
  = (Ok [Request (PyInt 5)], (connected, [EvGetMessages 10 0]))
  /\ fst (get_next_requests (delivering [int_url]) 10 (connected, []))
     <> Ok (map Request (string_urls [int_url])).
Proof.
  split.
  - vm_compute. reflexivity.
  - vm_compute. discriminate.
Qed.

End Witness.

(** * Further properties of the module *)

(** ** Connecting, again *)

Section MoreConnections.

Context (broker : Broker) {codec : Codec}.

Lemma _connect_consumer_accepted (b : Backend) (tr : trace) :
  _cons b = None ->
  simple_consumer broker (count is_new_consumer tr) = None ->
  _connect_consumer broker (b, tr)
  = (Ok true,
     (set_cons (Some (S (count is_new_consumer tr))) b,
      EvSimpleConsumer (_group b) (_topic_todo b) :: tr)).
Proof.
  intros Hc Hbroker. unfold _connect_consumer. rewrite bind_self.
  cbn [fst]. rewrite Hc.
  unfold try_except, bind at 1, world at 1, SimpleConsumer, call.
  cbn [fst snd]. rewrite Hbroker. reflexivity.
Qed.

Lemma _connect_producer_accepted (b : Backend) (tr : trace) :
  _prod b = None ->
  simple_producer broker (count is_new_producer tr) = None ->
  _connect_producer broker (b, tr)
  = (Ok true,
     (set_prod (Some (S (count is_new_producer tr))) b,
      EvSimpleProducer :: tr)).
Proof.
  intros Hp Hbroker. unfold _connect_producer. rewrite bind_self.
  cbn [fst]. rewrite Hp.
  unfold try_except, bind at 1, world at 1, SimpleProducer, call.
  cbn [fst snd]. rewrite Hbroker. reflexivity.
Qed.

Lemma _connect_producer_refused (b : Backend) (tr : trace) :
  _prod b = None ->
  simple_producer broker (count is_new_producer tr) = Some BrokerResponseError ->
  has_level "warning" (_manager b) ->
  _connect_producer broker (b, tr)
  = (Ok false,
     (b, EvLog "warning" CouldNotConnectProducer :: EvSimpleProducer :: tr)).
Proof.
  intros Hp Hbroker Hlog. unfold _connect_producer. rewrite bind_self.
  cbn [fst]. rewrite Hp.
  unfold try_except, bind at 1, world at 1, SimpleProducer, call.
  cbn [fst snd]. rewrite Hbroker. cbn [is_BrokerResponseError].
  unfold bind, update, world. cbn [fst snd].
  rewrite log_Ok by assumption. unfold ret.
  rewrite <- Hp at 1. rewrite set_prod_same. reflexivity.
Qed.

Lemma _connect_consumer_raises (b : Backend) (tr : trace) (e : exn) :
  _cons b = None ->
  simple_consumer broker (count is_new_consumer tr) = Some e ->
  is_BrokerResponseError e = false ->
  _connect_consumer broker (b, tr)
  = (Raise e, (b, EvSimpleConsumer (_group b) (_topic_todo b) :: tr)).
Proof.
  intros Hc Hbroker He. unfold _connect_consumer. rewrite bind_self.
  cbn [fst]. rewrite Hc.
  unfold try_except, bind at 1, world at 1, SimpleConsumer, call.
  cbn [fst snd]. rewrite Hbroker, He. reflexivity.
Qed.

Lemma _connect_producer_raises (b : Backend) (tr : trace) (e : exn) :
  _prod b = None ->
  simple_producer broker (count is_new_producer tr) = Some e ->
  is_BrokerResponseError e = false ->
  _connect_producer broker (b, tr)
  = (Raise e, (b, EvSimpleProducer :: tr)).
Proof.
  intros Hp Hbroker He. unfold _connect_producer. rewrite bind_self.
  cbn [fst]. rewrite Hp.
  unfold try_except, bind at 1, world at 1, SimpleProducer, call.
  cbn [fst snd]. rewrite Hbroker, He. reflexivity.
Qed.

(** X1. Once a role is connected, connecting again does nothing: calling
    [_connect_consumer] (or [_connect_producer]) twice on an unconnected
    object, with a broker that accepts, makes one connection attempt,
    stores its handle, and both calls return [True]. *)
Theorem connecting_twice_connects_once (b : Backend) (tr : trace) :
  _cons b = None ->
  _prod b = None ->
  simple_consumer broker (count is_new_consumer tr) = None ->
  simple_producer broker (count is_new_producer tr) = None ->
  (first <- _connect_consumer broker ;;
   second <- _connect_consumer broker ;;
   ret (first, second)) (b, tr)
  = (Ok (true, true),
     (set_cons (Some (S (count is_new_consumer tr))) b,
      EvSimpleConsumer (_group b) (_topic_todo b) :: tr))
  /\ (first <- _connect_producer broker ;;
      second <- _connect_producer broker ;;
      ret (first, second)) (b, tr)
     = (Ok (true, true),
        (set_prod (Some (S (count is_new_producer tr))) b,
         EvSimpleProducer :: tr)).
Proof.
  intros Hc Hp Hbc Hbp. split.
  - erewrite bind_Ok by (apply _connect_consumer_accepted; assumption).
    erewrite bind_Ok
      by (eapply _connect_consumer_connected; reflexivity).
    reflexivity.
  - erewrite bind_Ok by (apply _connect_producer_accepted; assumption).
    erewrite bind_Ok
      by (eapply _connect_producer_connected; reflexivity).
    reflexivity.
Qed.

(** X2. A refused connection leaves the handle unset, so the next call
    tries again: when the broker refuses the producer once and accepts
    the next attempt, the first [_connect_producer] returns [False] after
    a warning and the second returns [True] with the handle stored; the
    same holds for the consumer. *)
Theorem refused_connection_is_retried (b : Backend) (tr : trace) :
  _cons b = None ->
  _prod b = None ->
  has_level "warning" (_manager b) ->
  simple_producer broker (count is_new_producer tr) = Some BrokerResponseError ->
  simple_producer broker (S (count is_new_producer tr)) = None ->
  simple_consumer broker (count is_new_consumer tr) = Some BrokerResponseError ->
  simple_consumer broker (S (count is_new_consumer tr)) = None ->
  (first <- _connect_producer broker ;;
   second <- _connect_producer broker ;;
   ret (first, second)) (b, tr)
  = (Ok (false, true),
     (set_prod (Some (S (S (count is_new_producer tr)))) b,
      EvSimpleProducer
      :: EvLog "warning" CouldNotConnectProducer
      :: EvSimpleProducer :: tr))
  /\ (first <- _connect_consumer broker ;;
      second <- _connect_consumer broker ;;
      ret (first, second)) (b, tr)
     = (Ok (false, true),
        (set_cons (Some (S (S (count is_new_consumer tr)))) b,
         EvSimpleConsumer (_group b) (_topic_todo b)
         :: EvLog "warning" CouldNotConnectConsumer
         :: EvSimpleConsumer (_group b) (_topic_todo b) :: tr)).
Proof.
  intros Hc Hp Hlog Hp1 Hp2 Hc1 Hc2. split.
  - erewrite bind_Ok by (apply _connect_producer_refused; assumption).
    erewrite bind_Ok by (apply _connect_producer_accepted;
                         [assumption | rewrite !count_cons; exact Hp2]).
    rewrite !count_cons. reflexivity.
  - erewrite bind_Ok by (apply _connect_consumer_refused; assumption).
    erewrite bind_Ok by (apply _connect_consumer_accepted;
                         [assumption | rewrite !count_cons; exact Hc2]).
    rewrite !count_cons. reflexivity.
Qed.

(** X3. Only [BrokerResponseError] is handled: any other exception of the
    consumer's constructor leaves [_connect_consumer] as it is, with no
    warning, and so leaves [frontier_start] and, when the seed buffer is
    empty, [get_next_requests]. *)
Theorem other_exceptions_propagate (b : Backend) (tr : trace) (e : exn)
    (max_n : Z) :
  _cons b = None ->
  simple_consumer broker (count is_new_consumer tr) = Some e ->
  is_BrokerResponseError e = false ->
  let tr' := EvSimpleConsumer (_group b) (_topic_todo b) :: tr in
  _connect_consumer broker (b, tr) = (Raise e, (b, tr'))
  /\ frontier_start broker (b, tr) = (Raise e, (b, tr'))
  /\ (_seeds b = [] ->
      get_next_requests broker max_n (b, tr) = (Raise e, (b, tr'))).
Proof.
  intros Hc Hbroker He tr'.
  pose proof (_connect_consumer_raises b tr e Hc Hbroker He) as Hraise.
  split; [exact Hraise|]. split.
  - unfold frontier_start. rewrite bind_self. cbn [fst].
    unfold bind. rewrite Hraise. reflexivity.
  - intros Hs. unfold get_next_requests. rewrite bind_self. cbn [fst].
    rewrite Hs. cbn [truthy Truthy_list]. unfold bind. rewrite Hraise.
    reflexivity.
Qed.

End MoreConnections.

(** ** The constructor *)

Section Constructor.

Context (broker : Broker) {codec : Codec}.

Lemma __init___client_accepted manager server group topic_todo topic_done
    wait_time comm_tries tr :
  kafka_client broker (count is_client tr) = None ->
  __init__ broker manager server group topic_todo topic_done wait_time
    comm_tries tr
  = match
      (_connect_consumer broker ;; _connect_producer broker)
        (mkBackend (manager_or_test manager) []
           (py_or server DEFAULT_SERVER)
           (py_or topic_todo DEFAULT_TOPIC_TODO)
           (py_or topic_done DEFAULT_TOPIC_DONE)
           (py_or group DEFAULT_GROUP)
           (py_or wait_time DEFAULT_WAIT_TIME)
           (py_or comm_tries DEFAULT_COMM_TRIES) None None,
         EvKafkaClient (py_or server DEFAULT_SERVER) :: tr)
    with
    | (Ok _, (b', tr')) => (Ok b', tr')
    | (Raise e, (_, tr')) => (Raise e, tr')
    end.
Proof.
  intros Hclient. unfold __init__, bind at 1, try_except, call.
  rewrite Hclient. reflexivity.
Qed.

Lemma __init___manager manager server group topic_todo topic_done wait_time
    comm_tries tr b tr' :
  __init__ broker manager server group topic_todo topic_done wait_time
    comm_tries tr = (Ok b, tr') ->
  _manager b = manager_or_test manager.
Proof.
  unfold __init__. unfold bind at 1.
  destruct (try_except _ _ _ tr) as [[[]|e] tr1]; [|discriminate].
  unfold bind.
  destruct (_connect_consumer broker _) as [[connected|e] [b1 tr2]] eqn:H1;
    [|discriminate].
  destruct (_connect_producer broker _) as [[connected'|e] [b2 tr3]] eqn:H2;
    [|discriminate].
  intros [= <- _].
  apply _connect_consumer_keeps in H1. apply _connect_producer_keeps in H2.
  rewrite H2, H1. reflexivity.
Qed.

(** X4. Without a client there is no backend: when [KafkaClient] raises
    [KafkaUnavailableError] the constructor logs one error and raises the
    same exception, and any other exception of [KafkaClient] leaves the
    constructor unlogged; either way neither role is attempted. *)
Theorem constructor_needs_the_client manager server group topic_todo
    topic_done wait_time comm_tries tr (e : exn) :
  kafka_client broker (count is_client tr) = Some e ->
  has_level "error" (manager_or_test manager) ->
  let server' := py_or server DEFAULT_SERVER in
  __init__ broker manager server group topic_todo topic_done wait_time
    comm_tries tr
  = (Raise e,
     if is_KafkaUnavailableError e
     then EvLog "error" (CouldNotConnectServer server')
          :: EvKafkaClient server' :: tr
     else EvKafkaClient server' :: tr).
Proof.
  intros Hclient Hlog server'.
  unfold __init__, bind at 1, try_except, call. rewrite Hclient.
  destruct e; cbn [is_KafkaUnavailableError]; try reflexivity.
  fold (manager_or_test manager).
  erewrite bind_Ok by (apply log_Ok; exact Hlog). reflexivity.
Qed.

(** X5. With a client, construction succeeds whether or not the roles
    connect: the consumer is attempted first, then the producer, each
    once; a refused role is left unset and an accepted one is stored; the
    seed buffer starts empty. *)
Theorem constructor_survives_refusals manager server group topic_todo
    topic_done wait_time comm_tries tr :
  kafka_client broker (count is_client tr) = None ->
  accepted_or_refused (simple_consumer broker (count is_new_consumer tr)) ->
  accepted_or_refused (simple_producer broker (count is_new_producer tr)) ->
  has_level "warning" (manager_or_test manager) ->
  exists b tr',
    __init__ broker manager server group topic_todo topic_done wait_time
      comm_tries tr = (Ok b, tr')
    /\ (_cons b = None
        <-> simple_consumer broker (count is_new_consumer tr)
            = Some BrokerResponseError)
    /\ (_prod b = None
        <-> simple_producer broker (count is_new_producer tr)
            = Some BrokerResponseError)
    /\ _seeds b = []
    /\ filter is_broker_op tr'
       = EvSimpleProducer
         :: EvSimpleConsumer (py_or group DEFAULT_GROUP)
              (py_or topic_todo DEFAULT_TOPIC_TODO)
         :: EvKafkaClient (py_or server DEFAULT_SERVER)
         :: filter is_broker_op tr.
Proof.
  intros Hclient Hc Hp Hlog.
  rewrite __init___client_accepted by exact Hclient.
  destruct Hc as [Hc|Hc], Hp as [Hp|Hp].
  - erewrite bind_Ok
      by (apply _connect_consumer_accepted;
          first [reflexivity | exact Hc]).
    rewrite _connect_producer_accepted
      by first [reflexivity | exact Hp].
    eexists. eexists. split; [reflexivity|]. cbn.
    rewrite Hc, Hp. repeat split; intros; try discriminate; reflexivity.
  - erewrite bind_Ok
      by (apply _connect_consumer_accepted;
          first [reflexivity | exact Hc]).
    rewrite _connect_producer_refused
      by first [reflexivity | exact Hp | exact Hlog].
    eexists. eexists. split; [reflexivity|]. cbn.
    rewrite Hc, Hp. repeat split; intros; try discriminate; reflexivity.
  - erewrite bind_Ok
      by (apply _connect_consumer_refused;
          first [reflexivity | exact Hc | exact Hlog]).
    rewrite _connect_producer_accepted
      by first [reflexivity | exact Hp].
    eexists. eexists. split; [reflexivity|]. cbn.
    rewrite Hc, Hp. repeat split; intros; try discriminate; reflexivity.
  - erewrite bind_Ok
      by (apply _connect_consumer_refused;
          first [reflexivity | exact Hc | exact Hlog]).
    rewrite _connect_producer_refused
      by first [reflexivity | exact Hp | exact Hlog].
    eexists. eexists. split; [reflexivity|]. cbn.
    rewrite Hc, Hp. repeat split; intros; try discriminate; reflexivity.
Qed.


(** X7. [from_manager] takes the server, the group and the topics from
    the manager's settings and passes no wait and no number of tries: a
    backend made by it keeps that manager and always waits the default
    second and tries the default five times. *)
Theorem from_manager_keeps_default_retries (manager : Manager) tr b tr' :
  from_manager broker manager tr = (Ok b, tr') ->
  _manager b = manager
  /\ _wait_time b = DEFAULT_WAIT_TIME
  /\ _comm_tries b = DEFAULT_COMM_TRIES
  /\ _server b = py_or (settings manager "KAFKA_SERVER") DEFAULT_SERVER
  /\ _group b = py_or (settings manager "KAFKA_GROUP") DEFAULT_GROUP
  /\ _topic_todo b
     = py_or (settings manager "KAFKA_TOPIC_TODO") DEFAULT_TOPIC_TODO
  /\ _topic_done b
     = py_or (settings manager "KAFKA_TOPIC_DONE") DEFAULT_TOPIC_DONE.
Proof.
  unfold from_manager. intros Hinit.
  pose proof (__init___manager _ _ _ _ _ _ _ _ _ _ Hinit) as Hm.
  apply __init___config in Hinit.
  destruct Hinit as (Hs & Hg & Ht & Hd & Hw & Hn & _).
  repeat split; assumption.
Qed.

End Constructor.

(** ** Publishing *)

Section Publishing.

Context (broker : Broker) {codec : Codec}.

Lemma send_attempt_accepted b msg success n_tries tr :
  send_messages broker (count is_send tr) = None ->
  send_attempt broker b msg success n_tries tr
  = (Ok (true, n_tries), EvSendMessages (_topic_done b) msg :: tr).
Proof.
  intros Hbroker. unfold send_attempt, try_except, bind at 1, call.
  rewrite Hbroker. reflexivity.
Qed.

Lemma send_attempt_raises b msg success n_tries tr e :
  send_messages broker (count is_send tr) = Some e ->
  is_BrokerResponseError e = false ->
  send_attempt broker b msg success n_tries tr
  = (Raise e, EvSendMessages (_topic_done b) msg :: tr).
Proof.
  intros Hbroker He. unfold send_attempt, try_except, bind at 1, call.
  rewrite Hbroker, He. reflexivity.
Qed.

(** [k] refused sends and then an accepted one. *)
Lemma send_loop_eventually b msg (k : nat) n_tries tr :
  (forall j, (j < k)%nat ->
     send_messages broker (count is_send tr + j) = Some BrokerResponseError) ->
  send_messages broker (count is_send tr + k) = None ->
  has_level "warning" (_manager b) ->
  (0 <= _wait_time b)%Q ->
  n_tries + Z.of_nat k < _comm_tries b ->
  send_loop broker b msg false n_tries tr
  = (Ok true,
     EvSendMessages (_topic_done b) msg :: failed_sends b msg n_tries k ++ tr).
Proof.
  intros Hrefused Haccepted Hlog Hwait.
  revert n_tries tr Hrefused Haccepted.
  induction k as [|k IH]; intros n_tries tr Hrefused Haccepted Hk;
    rewrite send_loop_while; cbn [negb andb];
    (destruct (Z.ltb_spec n_tries (_comm_tries b)); [|lia]).
  - rewrite Nat.add_0_r in Haccepted.
    rewrite send_attempt_accepted by exact Haccepted.
    rewrite send_loop_while. reflexivity.
  - rewrite send_attempt_refused
      by (first [exact Hlog | exact Hwait
                | rewrite <- (Nat.add_0_r (count is_send tr));
                  apply Hrefused; lia]).
    rewrite IH.
    + cbn [failed_sends]. rewrite <- app_assoc. reflexivity.
    + intros j Hj. rewrite !count_cons. cbn [is_send].
      replace (0 + (0 + (1 + count is_send tr)) + j)%nat
        with (count is_send tr + S j)%nat by lia.
      apply Hrefused. lia.
    + rewrite !count_cons. cbn [is_send].
      replace (0 + (0 + (1 + count is_send tr)) + k)%nat
        with (count is_send tr + S k)%nat by lia.
      exact Haccepted.
    + lia.
Qed.

Lemma count_sleep_failed_sends b msg n k :
  count is_sleep (failed_sends b msg n k) = k.
Proof.
  revert n. induction k as [|k IH]; intros n; [reflexivity|].
  cbn [failed_sends]. rewrite count_app, IH. cbn. lia.
Qed.

(** X8. With a wait that is not negative, a send that is refused [k]
    times and then accepted, with [k] below the number of tries, is made
    [k + 1] times: [page_crawled] encodes the dictionary of the page's URL
    and its links' URLs once, and the [_send_message] it runs sends that
    to the done topic, sleeps after each of the [k] refusals, and returns
    [True]. *)
Theorem refused_sends_are_retried (b : Backend) (tr : trace) (h : nat)
    (response_url : pyobj) (links_urls : list pyobj) (k : nat) :
  _prod b = Some h ->
  has_level "warning" (_manager b) ->
  (0 <= _wait_time b)%Q ->
  (forall j, (j < k)%nat ->
     send_messages broker (count is_send tr + j) = Some BrokerResponseError) ->
  send_messages broker (count is_send tr + k) = None ->
  Z.of_nat k < _comm_tries b ->
  let obj := PyDict [("url", response_url); ("links", PyList links_urls)] in
  let new :=
    EvSendMessages (_topic_done b) (encode obj)
    :: failed_sends b (encode obj) 0 k in
  _send_message broker obj (b, tr) = (Ok true, (b, new ++ tr))
  /\ page_crawled broker response_url links_urls (b, tr)
     = (Ok tt, (b, new ++ tr))
  /\ count is_send new = S k
  /\ count is_sleep new = k.
Proof.
  intros Hp Hlog Hwait Hrefused Haccepted Hk obj new.
  assert (Hsend : _send_message broker obj (b, tr)
                  = (Ok true, (b, new ++ tr))).
  { unfold _send_message.
    erewrite bind_Ok by (eapply _connect_producer_connected; eassumption).
    cbv beta iota. rewrite bind_self. cbn [fst].
    apply world_eq. subst new. cbn [app].
    apply send_loop_eventually; auto. }
  split; [exact Hsend|]. split; [|split].
  - unfold page_crawled. fold obj. erewrite bind_Ok by exact Hsend.
    reflexivity.
  - subst new. rewrite count_cons, count_failed_sends. reflexivity.
  - subst new. rewrite count_cons, count_sleep_failed_sends. reflexivity.
Qed.

(** X9. Without a producer nothing is sent: when the producer is unset
    and the broker refuses it, [_send_message] returns [False] after the
    one connection attempt and its warning, with no send and no sleep,
    and [page_crawled] returns as if nothing had happened. *)
Theorem unconnected_producer_sends_nothing (b : Backend) (tr : trace)
    (response_url : pyobj) (links_urls : list pyobj) :
  _prod b = None ->
  simple_producer broker (count is_new_producer tr) = Some BrokerResponseError ->
  has_level "warning" (_manager b) ->
  let obj := PyDict [("url", response_url); ("links", PyList links_urls)] in
  let tr' :=
    EvLog "warning" CouldNotConnectProducer :: EvSimpleProducer :: tr in
  _send_message broker obj (b, tr) = (Ok false, (b, tr'))
  /\ page_crawled broker response_url links_urls (b, tr) = (Ok tt, (b, tr')).
Proof.
  intros Hp Hbroker Hlog obj tr'.
  assert (Hsend : _send_message broker obj (b, tr) = (Ok false, (b, tr'))).
  { unfold _send_message.
    erewrite bind_Ok by (apply _connect_producer_refused; assumption).
    reflexivity. }
  split; [exact Hsend|].
  unfold page_crawled. fold obj. erewrite bind_Ok by exact Hsend.
  reflexivity.
Qed.

(** X10. Only [BrokerResponseError] is retried: any other exception of a
    send leaves [_send_message], and [page_crawled] with it, at once,
    after that one send and without warning or sleep. *)
Theorem other_send_exceptions_propagate (b : Backend) (tr : trace)
    (h : nat) (response_url : pyobj) (links_urls : list pyobj) (e : exn) :
  _prod b = Some h ->
  send_messages broker (count is_send tr) = Some e ->
  is_BrokerResponseError e = false ->
  0 < _comm_tries b ->
  let obj := PyDict [("url", response_url); ("links", PyList links_urls)] in
  let tr' := EvSendMessages (_topic_done b) (encode obj) :: tr in
  _send_message broker obj (b, tr) = (Raise e, (b, tr'))
  /\ page_crawled broker response_url links_urls (b, tr)
     = (Raise e, (b, tr')).
Proof.
  intros Hp Hbroker He Htries obj tr'.
  assert (Hsend : _send_message broker obj (b, tr) = (Raise e, (b, tr'))).
  { unfold _send_message.
    erewrite bind_Ok by (eapply _connect_producer_connected; eassumption).
    cbv beta iota. rewrite bind_self. cbn [fst].
    apply world_eq. rewrite send_loop_while. cbn [negb andb].
    destruct (Z.ltb_spec 0 (_comm_tries b)); [|lia].
    rewrite (send_attempt_raises _ _ _ _ _ e) by assumption. reflexivity. }
  split; [exact Hsend|].
  unfold page_crawled. fold obj. unfold bind. rewrite Hsend. reflexivity.
Qed.

Lemma sleep_raises (seconds : Q) (tr : trace) :
  (seconds < 0)%Q -> sleep seconds tr = (Raise IOError, tr).
Proof.
  intros H. unfold sleep.
  destruct (Qle_bool 0 seconds) eqn:Hle; [|reflexivity].
  apply Qle_bool_iff in Hle. exfalso. apply (Qlt_not_le _ _ H Hle).
Qed.

(** X23. A negative wait ends the retrying: with a negative
    [_wait_time], a connected producer and a refused send,
    [_send_message] warns once and then the sleep raises, so the call,
    and [page_crawled] with it, ends in that exception after the one
    send, whatever the number of tries. *)
Theorem negative_wait_ends_the_retrying (b : Backend) (tr : trace) (h : nat)
    (response_url : pyobj) (links_urls : list pyobj) :
  _prod b = Some h ->
  send_messages broker (count is_send tr) = Some BrokerResponseError ->
  has_level "warning" (_manager b) ->
  (_wait_time b < 0)%Q ->
  0 < _comm_tries b ->
  let obj := PyDict [("url", response_url); ("links", PyList links_urls)] in
  let tr' :=
    EvLog "warning" (CouldNotSend 1 (_comm_tries b))
    :: EvSendMessages (_topic_done b) (encode obj) :: tr in
  _send_message broker obj (b, tr) = (Raise IOError, (b, tr'))
  /\ page_crawled broker response_url links_urls (b, tr)
     = (Raise IOError, (b, tr')).
Proof.
  intros Hp Hbroker Hlog Hwait Htries obj tr'.
  assert (Hsend : _send_message broker obj (b, tr)
                  = (Raise IOError, (b, tr'))).
  { unfold _send_message.
    erewrite bind_Ok by (eapply _connect_producer_connected; eassumption).
    cbv beta iota. rewrite bind_self. cbn [fst].
    apply world_eq. rewrite send_loop_while. cbn [negb andb].
    destruct (Z.ltb_spec 0 (_comm_tries b)); [|lia].
    unfold send_attempt, try_except, bind at 1, call.
    rewrite Hbroker. cbn [is_BrokerResponseError].
    erewrite bind_Ok by (apply log_Ok; assumption).
    unfold bind. rewrite sleep_raises by exact Hwait. reflexivity. }
  split; [exact Hsend|].
  unfold page_crawled. fold obj. unfold bind. rewrite Hsend. reflexivity.
Qed.

End Publishing.

Section PublishingBounds.

Context (broker : Broker) {codec : Codec}.

Lemma publishing_send topic msg :
  publishing topic msg (EvSendMessages topic msg) = true.
Proof. cbn. rewrite !String.eqb_refl. reflexivity. Qed.

Lemma _connect_producer_events b tr r b' tr' topic msg :
  _connect_producer broker (b, tr) = (r, (b', tr')) ->
  exists new,
    tr' = new ++ tr
    /\ forallb (publishing topic msg) new = true
    /\ count is_send new = O
    /\ (count is_new_producer new <= 1)%nat.
Proof.
  unfold _connect_producer. rewrite bind_self. cbn [fst].
  destruct (_prod b).
  - intros [= _ _ <-]. exists []. cbn. auto.
  - unfold try_except, bind, world, update, ret, SimpleProducer, call, log,
      emit, raise. cbn [fst snd].
    destruct (simple_producer broker _) as [e|]; cbn [fst snd].
    + destruct (is_BrokerResponseError e); cbn [fst snd].
      * destruct (existsb _ _); cbn [fst snd]; intros [= _ _ <-].
        -- exists [EvLog "warning" CouldNotConnectProducer; EvSimpleProducer].
           cbn. auto.
        -- exists [EvSimpleProducer]. cbn. auto.
      * intros [= _ _ <-]. exists [EvSimpleProducer]. cbn. auto.
    + intros [= _ _ <-]. exists [EvSimpleProducer]. cbn. auto.
Qed.

Lemma send_attempt_events b msg success n_tries tr r tr' :
  send_attempt broker b msg success n_tries tr = (r, tr') ->
  exists new,
    tr' = new ++ tr
    /\ forallb (publishing (_topic_done b) msg) new = true
    /\ count is_send new = 1%nat
    /\ count is_new_producer new = O
    /\ (r = Ok (true, n_tries) \/ r = Ok (success, n_tries + 1)
        \/ exists e, r = Raise e).
Proof.
  unfold send_attempt, try_except, bind, call, ret, log, sleep, emit, raise.
  pose proof (publishing_send (_topic_done b) msg) as Hsend.
  destruct (send_messages broker _) as [e|].
  - destruct (is_BrokerResponseError e).
    + destruct (existsb _ _); [destruct (Qle_bool _ _)|]; intros [= <- <-].
      * exists [EvSleep (_wait_time b);
                EvLog "warning" (CouldNotSend (n_tries + 1) (_comm_tries b));
                EvSendMessages (_topic_done b) msg].
        cbn [app forallb publishing]. cbn [publishing] in Hsend.
        rewrite Hsend. repeat split; auto.
      * exists [EvLog "warning" (CouldNotSend (n_tries + 1) (_comm_tries b));
                EvSendMessages (_topic_done b) msg].
        cbn [app forallb publishing]. cbn [publishing] in Hsend.
        rewrite Hsend. repeat split; eauto.
      * exists [EvSendMessages (_topic_done b) msg].
        cbn [app forallb]. rewrite Hsend. repeat split; eauto.
    + intros [= <- <-]. exists [EvSendMessages (_topic_done b) msg].
      cbn [app forallb]. rewrite Hsend. repeat split; eauto.
  - intros [= <- <-]. exists [EvSendMessages (_topic_done b) msg].
    cbn [app forallb]. rewrite Hsend. repeat split; auto.
Qed.

Lemma send_loop_events b msg success n_tries tr r tr' :
  send_loop broker b msg success n_tries tr = (r, tr') ->
  exists new,
    tr' = new ++ tr
    /\ forallb (publishing (_topic_done b) msg) new = true
    /\ (count is_send new
        <= if success then 0 else Z.to_nat (_comm_tries b - n_tries))%nat
    /\ count is_new_producer new = O.
Proof.
  funelim (send_loop broker b msg success n_tries tr).
  - intros [= _ <-]. exists []. auto.
  - intros [= _ <-]. exists []. cbn. repeat split; auto. lia.
  - intros Hrun.
    match goal with
    | IH : context [forallb] |- _ =>
        apply IH in Hrun as (new2 & -> & Hall2 & Hcount2 & Hconn2)
    end.
    destruct (send_attempt_events _ _ _ _ _ _ _ Heq)
      as (new1 & Htr & Hall1 & Hcount1 & Hconn1 & Hr).
    exists (new2 ++ new1). rewrite Htr, app_assoc. split; [reflexivity|].
    split; [rewrite forallb_app, Hall1, Hall2; reflexivity|].
    split; [|rewrite count_app, Hconn1, Hconn2; reflexivity].
    rewrite count_app, Hcount1.
    destruct Hr as [Hr|[Hr|[x Hr]]]; try discriminate;
      injection Hr as -> ->; lia.
  - intros [= _ <-].
    match goal with
    | H : send_attempt _ _ _ _ _ _ = _ |- _ =>
        destruct (send_attempt_events _ _ _ _ _ _ _ H)
          as (new1 & Htr & Hall1 & Hcount1 & Hconn1 & _)
    end.
    exists new1. repeat split; auto. lia.
Qed.

(** X11. Whatever the broker does, one [_send_message] only adds to the
    world, and what it adds is attempts to connect the producer, at most
    one, sends of the encoded object to the done topic, at most
    [_comm_tries], warnings and sleeps; and of the object only the
    producer's handle can change. *)
Theorem publishing_is_bounded (b : Backend) (tr : trace) (obj : pyobj)
    (r : result bool) (b' : Backend) (tr' : trace) :
  _send_message broker obj (b, tr) = (r, (b', tr')) ->
  exists new,
    tr' = new ++ tr
    /\ forallb (publishing (_topic_done b) (encode obj)) new = true
    /\ (count is_new_producer new <= 1)%nat
    /\ (count is_send new <= Z.to_nat (_comm_tries b))%nat
    /\ b' = set_prod (_prod b') b.
Proof.
  unfold _send_message, bind at 1.
  destruct (_connect_producer broker (b, tr))
    as [[connected|e] [b1 tr1]] eqn:H1.
  - destruct (_connect_producer_events _ _ _ _ _
                (_topic_done b) (encode obj) H1)
      as (new1 & -> & Hall1 & Hcount1 & Hconn1).
    apply _connect_producer_keeps in H1.
    destruct connected.
    + rewrite bind_self. unfold world. cbn [fst snd].
      destruct (send_loop broker b1 (encode obj) false 0 (new1 ++ tr))
        as [r2 tr2] eqn:H2.
      intros [= <- <- <-].
      apply send_loop_events in H2 as (new2 & -> & Hall2 & Hcount2 & Hconn2).
      exists (new2 ++ new1). rewrite app_assoc. split; [reflexivity|].
      rewrite H1 in Hall2, Hcount2. cbn [_topic_done _comm_tries set_prod]
        in Hall2, Hcount2.
      split; [rewrite forallb_app, Hall1, Hall2; reflexivity|].
      split; [rewrite count_app, Hconn2; exact Hconn1|].
      split; [rewrite count_app, Hcount1; lia | exact H1].
    + intros [= <- <- <-]. exists new1.
      split; [reflexivity|]. split; [exact Hall1|]. split; [exact Hconn1|].
      split; [lia | exact H1].
  - destruct (_connect_producer_events _ _ _ _ _
                (_topic_done b) (encode obj) H1)
      as (new1 & -> & Hall1 & Hcount1 & Hconn1).
    apply _connect_producer_keeps in H1.
    intros [= <- <- <-]. exists new1.
    split; [reflexivity|]. split; [exact Hall1|]. split; [exact Hconn1|].
    split; [lia | exact H1].
Qed.

End PublishingBounds.

(** ** Fetching *)

Section FetchingBounds.

Context (broker : Broker) {codec : Codec}.

Lemma Q_eqb_refl q : Q_eqb q q = true.
Proof. unfold Q_eqb. rewrite Z.eqb_refl, Pos.eqb_refl. reflexivity. Qed.

Lemma logs_are_fetching group topic count_ timeout new :
  forallb is_log new = true ->
  forallb (fetching group topic count_ timeout) new = true.
Proof.
  induction new as [|e new IH]; [reflexivity|]. cbn [forallb].
  intros H. apply andb_prop in H as [He Hnew]. rewrite (IH Hnew).
  destruct e; try discriminate. reflexivity.
Qed.

Lemma logs_are_not_polls new :
  forallb is_log new = true -> count is_poll new = O.
Proof.
  induction new as [|e new IH]; [reflexivity|]. cbn [forallb].
  intros H. apply andb_prop in H as [He Hnew]. rewrite count_cons, (IH Hnew).
  destruct e; try discriminate. reflexivity.
Qed.

Lemma logs_are_not_connections new :
  forallb is_log new = true -> count is_new_consumer new = O.
Proof.
  induction new as [|e new IH]; [reflexivity|]. cbn [forallb].
  intros H. apply andb_prop in H as [He Hnew]. rewrite count_cons, (IH Hnew).
  destruct e; try discriminate. reflexivity.
Qed.

Lemma log_events m level msg tr r tr' :
  log m level msg tr = (r, tr') ->
  exists new, tr' = new ++ tr /\ forallb is_log new = true.
Proof.
  unfold log, emit, raise. destruct (existsb _ _); intros [= _ <-].
  - exists [EvLog level msg]. auto.
  - exists []. auto.
Qed.

Lemma _connect_consumer_events b tr r b' tr' count_ :
  _connect_consumer broker (b, tr) = (r, (b', tr')) ->
  exists new,
    tr' = new ++ tr
    /\ forallb (fetching (_group b) (_topic_todo b) count_ (_wait_time b)) new
       = true
    /\ count is_poll new = O
    /\ (count is_new_consumer new <= 1)%nat.
Proof.
  unfold _connect_consumer. rewrite bind_self. cbn [fst].
  assert (Hev : fetching (_group b) (_topic_todo b) count_ (_wait_time b)
                  (EvSimpleConsumer (_group b) (_topic_todo b)) = true)
    by (cbn; rewrite !String.eqb_refl; reflexivity).
  destruct (_cons b).
  - intros [= _ _ <-]. exists []. cbn. auto.
  - unfold try_except, bind, world, update, ret, SimpleConsumer, call, log,
      emit, raise. cbn [fst snd].
    destruct (simple_consumer broker _) as [e|]; cbn [fst snd].
    + destruct (is_BrokerResponseError e); cbn [fst snd].
      * destruct (existsb _ _); cbn [fst snd]; intros [= _ _ <-].
        -- exists [EvLog "warning" CouldNotConnectConsumer;
                   EvSimpleConsumer (_group b) (_topic_todo b)].
           cbn [app forallb]. rewrite Hev. cbn. auto.
        -- exists [EvSimpleConsumer (_group b) (_topic_todo b)].
           cbn [app forallb]. rewrite Hev. cbn. auto.
      * intros [= _ _ <-].
        exists [EvSimpleConsumer (_group b) (_topic_todo b)].
        cbn [app forallb]. rewrite Hev. cbn. auto.
    + intros [= _ _ <-].
      exists [EvSimpleConsumer (_group b) (_topic_todo b)].
      cbn [app forallb]. rewrite Hev. cbn. auto.
Qed.

(** One message adds warnings only, and at most one URL. *)
Lemma process_message_events b value urls success tr r tr' :
  process_message b value (urls, success) tr = (r, tr') ->
  exists new,
    tr' = new ++ tr
    /\ forallb is_log new = true
    /\ forall urls' success',
         r = Ok (urls', success') ->
         success' = true
         /\ exists added,
              urls' = urls ++ added /\ (length added <= 1)%nat.
Proof.
  unfold process_message. cbn [fst].
  unfold try_except, bind, lift, log, emit, raise, ret.
  destruct (decoder_decode value) as [obj|x].
  - destruct (getitem obj "url") as [url|e] eqn:Hget.
    + intros [= <- <-]. exists []. repeat split; auto.
      * injection H as <- <-. reflexivity.
      * injection H as <- <-. exists [url]. auto.
    + rewrite (getitem_raises _ _ _ Hget).
      destruct (existsb _ _); cbn; intros [= <- <-].
      * exists [EvLog "warning" CouldNotGetUrl]. repeat split; auto.
        -- injection H as <- <-. reflexivity.
        -- injection H as <- <-. exists []. rewrite app_nil_r. auto.
      * exists []. repeat split; auto; discriminate.
  - destruct (is_ValueError x).
    + destruct (existsb _ _); cbn; intros [= <- <-].
      * exists [EvLog "warning" (CouldNotDecode (_topic_todo b) value)].
        repeat split; auto.
        -- injection H as <- <-. reflexivity.
        -- injection H as <- <-. exists []. rewrite app_nil_r. auto.
      * exists []. repeat split; auto; discriminate.
    + intros [= <- <-]. exists []. repeat split; auto; discriminate.
Qed.

Lemma for_each_events b batch urls success tr r tr' :
  for_each (process_message b) batch (urls, success) tr = (r, tr') ->
  exists new,
    tr' = new ++ tr
    /\ forallb is_log new = true
    /\ forall urls' success',
         r = Ok (urls', success') ->
         success' = (success || truthy batch)
         /\ exists added,
              urls' = urls ++ added /\ (length added <= length batch)%nat.
Proof.
  revert urls success tr. induction batch as [|value batch IH];
    intros urls success tr; cbn [for_each].
  - intros [= <- <-]. exists []. repeat split; auto.
    + injection H as <- <-. rewrite orb_false_r. reflexivity.
    + injection H as <- <-. exists []. rewrite app_nil_r. auto.
  - unfold bind.
    destruct (process_message b value (urls, success) tr)
      as [[[urls1 success1]|e] tr1] eqn:H1.
    + intros H2.
      apply process_message_events in H1 as (new1 & -> & Hlog1 & Hr1).
      destruct (Hr1 _ _ eq_refl) as (-> & added1 & -> & Hlen1).
      apply IH in H2 as (new2 & -> & Hlog2 & Hr2).
      exists (new2 ++ new1). rewrite app_assoc. split; [reflexivity|].
      split; [rewrite forallb_app, Hlog1, Hlog2; reflexivity|].
      intros urls' success' Hr.
      destruct (Hr2 _ _ Hr) as (-> & added2 & -> & Hlen2).
      cbn [truthy Truthy_list orb]. rewrite orb_true_r. split; [reflexivity|].
      exists (added1 ++ added2). rewrite app_assoc, length_app.
      split; [reflexivity|]. cbn [length]. lia.
    + intros [= <- <-].
      apply process_message_events in H1 as (new1 & -> & Hlog1 & _).
      exists new1. repeat split; auto; discriminate.
Qed.

(** A round polls once and takes at most the polled batch. *)
Lemma poll_round_events b max_n urls success fails tr r tr' :
  poll_round broker b max_n urls success fails tr = (r, tr') ->
  exists new,
    tr' = new ++ tr
    /\ forallb (fetching (_group b) (_topic_todo b) max_n (_wait_time b)) new
       = true
    /\ count is_poll new = 1%nat
    /\ count is_new_consumer new = O
    /\ forall urls' success' fails',
         r = Ok (urls', success', fails') ->
         success'
         = (success || truthy (get_messages broker (count is_poll tr) max_n))
         /\ fails' = (if success' then fails else fails + 1)
         /\ exists added,
              urls' = urls ++ added
              /\ (length added
                  <= length (get_messages broker (count is_poll tr) max_n))%nat.
Proof.
  unfold poll_round, bind at 1, cons_get_messages. unfold bind at 1.
  set (batch := get_messages broker (count is_poll tr) max_n).
  set (g := _group b). set (t := _topic_todo b).
  assert (Hpoll : fetching g t max_n (_wait_time b)
                    (EvGetMessages max_n (_wait_time b)) = true)
    by (cbn; rewrite Z.eqb_refl, Q_eqb_refl; reflexivity).
  destruct (for_each (process_message b) batch (urls, success)
              (EvGetMessages max_n (_wait_time b) :: tr))
    as [[[urls1 success1]|e] tr1] eqn:H1.
  - apply for_each_events in H1 as (new1 & -> & Hlog1 & Hr1).
    destruct (Hr1 _ _ eq_refl) as (Hs1 & added1 & Hu1 & Hlen1).
    cbn [fst snd]. destruct success1; cbn [negb].
    + intros [= <- <-].
      exists (new1 ++ [EvGetMessages max_n (_wait_time b)]).
      rewrite <- app_assoc. split; [reflexivity|].
      split; [rewrite forallb_app, (logs_are_fetching g t _ _ _ Hlog1);
              cbn [forallb]; rewrite Hpoll; reflexivity|].
      split; [rewrite count_app, (logs_are_not_polls _ Hlog1);
              reflexivity|].
      split; [rewrite count_app, (logs_are_not_connections _ Hlog1);
              reflexivity|].
      intros urls' success' fails' [= <- <- <-].
      split; [exact Hs1|]. split; [reflexivity|].
      exists added1. auto.
    + unfold bind, ret.
      destruct (log _ _ _ _) as [[[]|e] tr2] eqn:H2;
        apply log_events in H2 as (new2 & -> & Hlog2);
        intros [= <- <-];
        exists (new2 ++ new1 ++ [EvGetMessages max_n (_wait_time b)]);
        rewrite <- !app_assoc; (split; [reflexivity|]);
        (split; [rewrite !forallb_app, (logs_are_fetching g t _ _ _ Hlog1),
                   (logs_are_fetching g t _ _ _ Hlog2);
                 cbn [forallb]; rewrite Hpoll; reflexivity|]);
        (split; [rewrite !count_app, (logs_are_not_polls _ Hlog1),
                   (logs_are_not_polls _ Hlog2); reflexivity|]);
        (split; [rewrite !count_app, (logs_are_not_connections _ Hlog1),
                   (logs_are_not_connections _ Hlog2); reflexivity|]).
      * intros urls' success' fails' [= <- <- <-].
        split; [exact Hs1|]. split; [reflexivity|].
        exists added1. auto.
      * discriminate.
  - apply for_each_events in H1 as (new1 & -> & Hlog1 & _).
    intros [= <- <-].
    exists (new1 ++ [EvGetMessages max_n (_wait_time b)]).
    rewrite <- app_assoc. split; [reflexivity|].
    split; [rewrite forallb_app, (logs_are_fetching g t _ _ _ Hlog1);
            cbn [forallb]; rewrite Hpoll; reflexivity|].
    split; [rewrite count_app, (logs_are_not_polls _ Hlog1); reflexivity|].
    split; [rewrite count_app, (logs_are_not_connections _ Hlog1);
            reflexivity|].
    discriminate.
Qed.

Lemma poll_loop_events b max_n urls success fails tr r tr' :
  poll_loop broker b max_n urls success fails tr = (r, tr') ->
  exists new,
    tr' = new ++ tr
    /\ forallb (fetching (_group b) (_topic_todo b) max_n (_wait_time b)) new
       = true
    /\ (count is_poll new
        <= if success then 0 else Z.to_nat (_comm_tries b - fails))%nat
    /\ count is_new_consumer new = O
    /\ forall urls',
         r = Ok urls' ->
         exists added,
           urls' = urls ++ added
           /\ (success = true -> added = [])
           /\ (added = []
               \/ exists i,
                    (length added
                     <= length (get_messages broker i max_n))%nat).
Proof.
  funelim (poll_loop broker b max_n urls success fails tr).
  - intros [= <- <-]. exists []. repeat split; auto.
    intros urls' [= <-]. exists []. rewrite app_nil_r. auto.
  - intros [= <- <-]. exists []. cbn. repeat split; auto; [lia|].
    intros urls' [= <-]. exists []. rewrite app_nil_r. auto.
  - intros Hrun.
    match goal with
    | IH : context [forallb] |- _ =>
        apply IH in Hrun as (new2 & -> & Hall2 & Hcount2 & Hconn2 & Hr2)
    end.
    destruct (poll_round_events _ _ _ _ _ _ _ _ Heq)
      as (new1 & Htr & Hall1 & Hcount1 & Hconn1 & Hr1).
    destruct (Hr1 _ _ _ eq_refl) as (Hs & Hf & added1 & Hu & Hlen1).
    exists (new2 ++ new1). rewrite Htr, app_assoc. split; [reflexivity|].
    split; [rewrite forallb_app, Hall1, Hall2; reflexivity|].
    split; [|split; [rewrite count_app, Hconn1, Hconn2; reflexivity|]].
    + rewrite count_app, Hcount1. destruct success'; lia.
    + intros urls'0 Hr. destruct (Hr2 _ Hr) as (added2 & -> & Htrue & Hbound).
      rewrite Hu, <- app_assoc. exists (added1 ++ added2).
      split; [reflexivity|]. split; [discriminate|].
      destruct success'.
      * rewrite (Htrue eq_refl), app_nil_r. right. eauto.
      * cbn [orb] in Hs.
        destruct (get_messages broker (count is_poll tr) max_n_requests);
          [|discriminate].
        destruct added1; [exact Hbound | cbn in Hlen1; lia].
  - intros [= <- <-].
    match goal with
    | H : poll_round _ _ _ _ _ _ _ = _ |- _ =>
        destruct (poll_round_events _ _ _ _ _ _ _ _ H)
          as (new1 & Htr & Hall1 & Hcount1 & Hconn1 & _)
    end.
    exists new1. repeat split; auto; [lia|discriminate].
Qed.

Lemma set_cons_frame b b1 c :
  b1 = set_cons c b -> b1 = set_seeds (_seeds b1) (set_cons (_cons b1) b).
Proof. intros ->. destruct b; reflexivity. Qed.

Lemma set_seeds_frame b l :
  set_seeds l b
  = set_seeds (_seeds (set_seeds l b)) (set_cons (_cons (set_seeds l b)) b).
Proof. destruct b; reflexivity. Qed.

(** X12. Whatever the broker does, one [get_next_requests] only adds to
    the world, and what it adds is attempts to connect the consumer of
    the configured group to the todo topic, at most one, polls for
    [max_n_requests] messages within the configured wait, at most
    [_comm_tries], and warnings; nothing is sent; and of the object only
    the seed buffer and the consumer's handle can change. *)
Theorem fetching_is_bounded (b : Backend) (tr : trace) (max_n : Z)
    (r : result (list pyobj)) (b' : Backend) (tr' : trace) :
  get_next_requests broker max_n (b, tr) = (r, (b', tr')) ->
  exists new,
    tr' = new ++ tr
    /\ forallb (fetching (_group b) (_topic_todo b) max_n (_wait_time b)) new
       = true
    /\ (count is_new_consumer new <= 1)%nat
    /\ (count is_poll new <= Z.to_nat (_comm_tries b))%nat
    /\ b' = set_seeds (_seeds b') (set_cons (_cons b') b).
Proof.
  unfold get_next_requests. rewrite bind_self. cbn [fst].
  destruct (_seeds b) as [|x l] eqn:Hs; cbn [truthy Truthy_list].
  - unfold bind at 1.
    destruct (_connect_consumer broker (b, tr))
      as [[connected|e] [b1 tr1]] eqn:H1;
      destruct (_connect_consumer_events _ _ _ _ _ max_n H1)
        as (new1 & -> & Hall1 & Hcount1 & Hconn1);
      apply _connect_consumer_keeps in H1.
    + assert (Hb1 : b1 = set_seeds (_seeds b1) (set_cons (_cons b1) b))
        by (eapply set_cons_frame; exact H1).
      destruct connected; cbn [negb].
      * rewrite bind_self. unfold bind, world, ret. cbn [fst snd].
        destruct (poll_loop broker b1 max_n [] false 0 (new1 ++ tr))
          as [r2 tr2] eqn:H2.
        apply poll_loop_events
          in H2 as (new2 & -> & Hall2 & Hcount2 & Hconn2 & _).
        rewrite H1 in Hall2, Hcount2.
        cbn [_group _topic_todo _wait_time _comm_tries set_cons]
          in Hall2, Hcount2.
        intros Hr.
        assert (b' = b1 /\ tr' = (new2 ++ new1) ++ tr) as [-> ->]
          by (rewrite <- app_assoc; destruct r2; injection Hr; auto).
        exists (new2 ++ new1). split; [reflexivity|].
        split; [rewrite forallb_app, Hall1, Hall2; reflexivity|].
        split; [rewrite count_app, Hconn2; exact Hconn1|].
        split; [rewrite count_app, Hcount1; lia | exact Hb1].
      * unfold bind, world, ret. cbn [fst snd].
        destruct (log _ _ _ _) as [r2 tr2] eqn:H2.
        apply log_events in H2 as (new2 & -> & Hlog2).
        intros Hr.
        assert (b' = b1 /\ tr' = (new2 ++ new1) ++ tr) as [-> ->]
          by (rewrite <- app_assoc; destruct r2; injection Hr; auto).
        exists (new2 ++ new1). split; [reflexivity|].
        split; [rewrite forallb_app, Hall1,
                  (logs_are_fetching _ _ _ _ _ Hlog2); reflexivity|].
        split; [rewrite count_app, (logs_are_not_connections _ Hlog2);
                exact Hconn1|].
        split; [rewrite count_app, Hcount1, (logs_are_not_polls _ Hlog2); lia
               |exact Hb1].
    + intros [= <- <- <-]. exists new1.
      split; [reflexivity|]. split; [exact Hall1|]. split; [exact Hconn1|].
      split; [lia | eapply set_cons_frame; exact H1].
  - unfold bind, update, ret. cbn [fst snd].
    intros [= <- <- <-]. exists [].
    split; [reflexivity|]. split; [reflexivity|]. split; [cbn; lia|].
    split; [cbn; lia | apply set_seeds_frame].
Qed.

(** X13. A call never returns more than it is asked for, as long as the
    consumer does not: if no poll for [max_n_requests] messages brings
    more than that many, and [max_n_requests] is a count, the list that
    [get_next_requests] returns has at most [max_n_requests] items,
    whether it comes from the seed buffer or from the topic. *)
Theorem never_more_than_asked (b : Backend) (tr : trace) (max_n : Z)
    (requests : list pyobj) (b' : Backend) (tr' : trace) :
  0 <= max_n ->
  (forall i, Z.of_nat (length (get_messages broker i max_n)) <= max_n) ->
  get_next_requests broker max_n (b, tr) = (Ok requests, (b', tr')) ->
  Z.of_nat (length requests) <= max_n.
Proof.
  intros Hn Hbroker Hrun. destruct (_seeds b) as [|x l] eqn:Hs.
  - revert Hrun. unfold get_next_requests. rewrite bind_self. cbn [fst].
    rewrite Hs. cbn [truthy Truthy_list]. unfold bind at 1.
    destruct (_connect_consumer broker (b, tr))
      as [[connected|e] [b1 tr1]]; [|discriminate].
    destruct connected; cbn [negb].
    + rewrite bind_self. unfold bind, world, ret. cbn [fst snd].
      destruct (poll_loop broker b1 max_n [] false 0 tr1)
        as [[urls|e] tr2] eqn:H2; [|discriminate].
      intros [= <- _ _].
      apply poll_loop_events in H2 as (new2 & _ & _ & _ & _ & Hr).
      destruct (Hr _ eq_refl) as (added & -> & _ & [->|[i Hi]]).
      * cbn. lia.
      * rewrite length_map. cbn [app]. specialize (Hbroker i). lia.
    + unfold bind, world, ret. cbn [fst snd].
      destruct (log _ _ _ _) as [[[]|e] tr2]; [|discriminate].
      intros [= <- _ _]. cbn. lia.
  - rewrite get_next_requests_seeds in Hrun by (rewrite Hs; discriminate).
    cbv zeta in Hrun. injection Hrun as <- _ _.
    rewrite slice_to_min by exact Hn. rewrite length_firstn. lia.
Qed.

End FetchingBounds.

Section LateBatch.

Context (broker : Broker) {codec : Codec}.

Lemma batch_log_has_no_poll b batch :
  count is_poll (batch_log b batch) = O.
Proof.
  induction batch as [|value batch IH]; [reflexivity|].
  cbn [batch_log]. rewrite count_app, IH. unfold discard_log.
  destruct (decoder_decode value) as [obj|e].
  - destruct (getitem obj "url"); reflexivity.
  - destruct (is_ValueError e); reflexivity.
Qed.

(** X14. The loop waits for the first batch: when the first [k] polls
    bring nothing and the next one brings messages, with payloads that
    the decoder decodes or rejects with [ValueError], and [k] is below the
    number of tries, [get_next_requests] polls [k + 1] times, logs a
    timeout after each of the [k] empty polls, and returns the requests of
    that batch without polling again. *)
Theorem first_batch_ends_the_polling (b : Backend) (tr : trace) (h : nat)
    (max_n : Z) (k : nat) (batch : list (option string)) :
  _seeds b = [] ->
  _cons b = Some h ->
  has_level "warning" (_manager b) ->
  (forall j, (j < k)%nat ->
     get_messages broker (count is_poll tr + j) max_n = []) ->
  get_messages broker (count is_poll tr + k) max_n = batch ->
  batch <> [] ->
  forallb decodes_or_is_invalid batch = true ->
  Z.of_nat k < _comm_tries b ->
  let new :=
    batch_log b batch
    ++ EvGetMessages max_n (_wait_time b) :: empty_polls b max_n 0 k in
  get_next_requests broker max_n (b, tr)
  = (Ok (map Request (kept_urls batch)), (b, new ++ tr))
  /\ count is_poll new = S k.
Proof.
  intros Hs Hc Hlog Hempty Hbatch Hne Hplain Hk new. split.
  - unfold get_next_requests. rewrite bind_self. cbn [fst].
    rewrite Hs. cbn [truthy Truthy_list].
    erewrite bind_Ok by (eapply _connect_consumer_connected; eassumption).
    cbn [negb]. rewrite bind_self. cbn [fst].
    erewrite bind_Ok
      by (apply world_eq,
            (poll_loop_late broker b max_n [] k 0 tr batch); auto).
    subst new. rewrite <- app_assoc. reflexivity.
  - subst new. rewrite count_app, count_cons, count_empty_polls.
    cbn [is_poll]. rewrite batch_log_has_no_poll. lia.
Qed.

(** X24. One message can end the call: when the first poll brings a batch
    in which the decoding of some message raises anything but
    [ValueError] ([TypeError] for a message without payload,
    [RuntimeError] for nesting too deep), the messages before it, with
    payloads that decode or are rejected with [ValueError], are processed,
    and then that exception leaves [get_next_requests]: the URLs read so
    far are not returned, and the messages after it are not looked at. *)
Theorem other_decode_exception_ends_the_call (b : Backend) (tr : trace)
    (h : nat) (max_n : Z) (before after : list (option string))
    (value : option string) (e : exn) :
  _seeds b = [] ->
  _cons b = Some h ->
  0 < _comm_tries b ->
  has_level "warning" (_manager b) ->
  get_messages broker (count is_poll tr) max_n = before ++ value :: after ->
  forallb decodes_or_is_invalid before = true ->
  decoder_decode value = Raise e ->
  is_ValueError e = false ->
  get_next_requests broker max_n (b, tr)
  = (Raise e,
     (b, batch_log b before ++ EvGetMessages max_n (_wait_time b) :: tr)).
Proof.
  intros Hs Hc Htries Hlog Hbatch Hplain Hd He.
  unfold get_next_requests. rewrite bind_self. cbn [fst].
  rewrite Hs. cbn [truthy Truthy_list].
  erewrite bind_Ok by (eapply _connect_consumer_connected; eassumption).
  cbn [negb]. rewrite bind_self. cbn [fst].
  unfold bind, world. cbn [fst snd].
  rewrite (poll_loop_batch_raises broker b max_n [] 0 tr before value after e)
    by assumption.
  reflexivity.
Qed.

End LateBatch.

(** ** Starting and stopping *)

Section StartStop.

Context (broker : Broker) {codec : Codec}.

(** X15. Starting does not depend on the connection: with a logger that
    has [info] and [warning], [frontier_start] on an unconnected object
    returns whether the broker accepts the consumer, then storing it and
    logging the success, or refuses it, then logging two warnings and
    leaving the object as it was. *)
Theorem start_returns_connected_or_not (b : Backend) (tr : trace) :
  _cons b = None ->
  accepted_or_refused (simple_consumer broker (count is_new_consumer tr)) ->
  has_level "info" (_manager b) ->
  has_level "warning" (_manager b) ->
  let attempt := EvSimpleConsumer (_group b) (_topic_todo b) :: tr in
  frontier_start broker (b, tr)
  = (Ok tt,
     match simple_consumer broker (count is_new_consumer tr) with
     | None =>
         (set_cons (Some (S (count is_new_consumer tr))) b,
          EvLog "info" (ConnectedConsumer (_topic_todo b)) :: attempt)
     | Some _ =>
         (b, EvLog "warning" (WillTryLater (_topic_todo b))
             :: EvLog "warning" CouldNotConnectConsumer :: attempt)
     end).
Proof.
  intros Hc [Hbroker|Hbroker] Hinfo Hwarning attempt; rewrite Hbroker;
    unfold frontier_start; rewrite bind_self; cbn [fst].
  - erewrite bind_Ok by (apply _connect_consumer_accepted; assumption).
    apply world_eq, log_Ok. exact Hinfo.
  - erewrite bind_Ok by (apply _connect_consumer_refused; assumption).
    apply world_eq, log_Ok. exact Hwarning.
Qed.

(** X16. The stand-in manager cannot report success: its logger has the
    methods [infodebug], [warning] and [error], so with [TestManager],
    which is what the constructor takes when it is given no manager,
    [frontier_start] raises [AttributeError] whenever the consumer is or
    gets connected, and returns only when the consumer is refused. *)
Theorem test_manager_cannot_start_connected (b : Backend) (tr : trace) :
  _manager b = TestManager ->
  (forall h, _cons b = Some h ->
     frontier_start broker (b, tr) = (Raise AttributeError, (b, tr)))
  /\ (_cons b = None ->
      simple_consumer broker (count is_new_consumer tr) = None ->
      frontier_start broker (b, tr)
      = (Raise AttributeError,
         (set_cons (Some (S (count is_new_consumer tr))) b,
          EvSimpleConsumer (_group b) (_topic_todo b) :: tr)))
  /\ (_cons b = None ->
      simple_consumer broker (count is_new_consumer tr)
      = Some BrokerResponseError ->
      frontier_start broker (b, tr)
      = (Ok tt,
         (b, EvLog "warning" (WillTryLater (_topic_todo b))
             :: EvLog "warning" CouldNotConnectConsumer
             :: EvSimpleConsumer (_group b) (_topic_todo b) :: tr))).
Proof.
  intros Hm.
  assert (Hwarning : has_level "warning" (_manager b))
    by (rewrite Hm; reflexivity).
  split; [|split].
  - intros h Hc. unfold frontier_start. rewrite bind_self. cbn [fst].
    erewrite bind_Ok by (eapply _connect_consumer_connected; exact Hc).
    rewrite Hm. reflexivity.
  - intros Hc Hbroker. unfold frontier_start. rewrite bind_self. cbn [fst].
    erewrite bind_Ok by (apply _connect_consumer_accepted; assumption).
    rewrite Hm. reflexivity.
  - intros Hc Hbroker. unfold frontier_start. rewrite bind_self. cbn [fst].
    erewrite bind_Ok by (apply _connect_consumer_refused; assumption).
    apply world_eq, log_Ok. exact Hwarning.
Qed.

(** X17. Stopping does not disconnect: with a connected producer,
    [frontier_stop] stops the producer and keeps its handle, a second
    [frontier_stop] stops it again, and a [_send_message] after them
    still sends through the same handle. *)
Theorem stop_keeps_the_producer (b : Backend) (tr : trace) (h : nat)
    (obj : pyobj) :
  _prod b = Some h ->
  send_messages broker (count is_send tr) = None ->
  0 < _comm_tries b ->
  (frontier_stop ;; frontier_stop ;; _send_message broker obj) (b, tr)
  = (Ok true,
     (b, EvSendMessages (_topic_done b) (encode obj)
         :: EvProducerStop :: EvProducerStop :: tr)).
Proof.
  intros Hp Hbroker Htries.
  erewrite bind_Ok by (eapply frontier_stop_connected; exact Hp).
  erewrite bind_Ok by (eapply frontier_stop_connected; exact Hp).
  unfold _send_message.
  erewrite bind_Ok by (eapply _connect_producer_connected; exact Hp).
  cbv beta iota. rewrite bind_self. cbn [fst].
  apply world_eq. rewrite send_loop_while. cbn [negb andb].
  destruct (Z.ltb_spec 0 (_comm_tries b)); [|lia].
  rewrite send_attempt_accepted by exact Hbroker.
  rewrite send_loop_while. reflexivity.
Qed.

End StartStop.

(** ** The seed buffer, again *)

Section MoreSeedBuffer.

Context (broker : Broker) {codec : Codec}.

(** X18. The buffer is a queue under any interleaving: for any sequence
    of [add_seeds] and [get_next_requests] calls, with counts that are not
    negative, no consumer and a broker that refuses it, every call
    returns, and what the calls return, in call order, followed by what is
    left in the buffer, is what the buffer held at first followed by what
    was added, in add order. *)
Theorem seed_buffer_is_a_queue (calls : list buffer_call) (b : Backend)
    (tr : trace) :
  _cons b = None ->
  (forall i, simple_consumer broker i = Some BrokerResponseError) ->
  has_level "warning" (_manager b) ->
  counts_only calls ->
  exists results rest tr',
    buffer_calls broker calls (b, tr)
    = (Ok results, (set_seeds rest b, tr'))
    /\ concat results ++ rest = _seeds b ++ seeds_added calls
    /\ length results
       = length (filter (fun c => match c with
                                  | GetNextRequests _ => true
                                  | AddSeeds _ => false
                                  end) calls).
Proof.
  intros Hc Hbroker Hlog. revert b tr Hc Hlog.
  induction calls as [|[seeds|n] calls IH]; intros b tr Hc Hlog Hcounts.
  - exists [], (_seeds b), tr. rewrite set_seeds_same. cbn.
    rewrite app_nil_r. auto.
  - cbn [buffer_calls seeds_added counts_only filter] in *.
    erewrite bind_Ok by reflexivity. cbn [fst snd].
    destruct (IH (set_seeds (_seeds b ++ seeds) b) tr Hc Hlog Hcounts)
      as (rs & rest & tr' & Hrun & Heq & Hlen).
    exists rs, rest, tr'. rewrite Hrun. cbn [_seeds set_seeds] in Heq.
    rewrite Heq, app_assoc. repeat split; auto.
  - cbn [buffer_calls seeds_added counts_only filter length] in *.
    destruct Hcounts as [Hn Hcounts].
    destruct (_seeds b) as [|x l] eqn:Hs.
    + erewrite bind_Ok by (apply get_next_requests_unreachable; auto).
      destruct (IH b (EvLog "warning" (CouldNotConnectConsumerTo (_topic_todo b))
         :: EvLog "warning" CouldNotConnectConsumer
         :: EvSimpleConsumer (_group b) (_topic_todo b) :: tr) Hc Hlog Hcounts)
        as (rs & rest & tr' & Hrun & Heq & Hlen).
      exists ([] :: rs), rest, tr'. erewrite bind_Ok by exact Hrun.
      rewrite Hs in Heq. cbn. rewrite Hlen. auto.
    + assert (Hne : _seeds b <> []) by (rewrite Hs; discriminate).
      erewrite bind_Ok by (apply get_next_requests_seeds; exact Hne).
      set (k := Z.min (Z.of_nat (length (_seeds b))) n).
      destruct (IH (set_seeds (slice_from (_seeds b) k) b) tr Hc Hlog Hcounts)
        as (rs & rest & tr' & Hrun & Heq & Hlen).
      exists (slice_to (_seeds b) k :: rs), rest, tr'.
      erewrite bind_Ok by exact Hrun. cbn [_seeds set_seeds] in *.
      split; [destruct b; reflexivity|]. split.
      * cbn [concat]. rewrite <- app_assoc, Heq, app_assoc, slice_to_from.
        rewrite Hs. reflexivity.
      * cbn [length]. rewrite Hlen. reflexivity.
Qed.

(** X19. A negative [max_n_requests] is not refused: with [n < 0] and a
    non-empty buffer, [min] keeps [n] and the slices count from the end,
    so the call returns all seeds but the last [-n] (none when the buffer
    holds no more than [-n]), keeps those last ones, and leaves the world
    as it was. *)
Theorem negative_count_keeps_the_tail (b : Backend) (tr : trace) (n : Z) :
  _seeds b <> [] ->
  n < 0 ->
  let k := (length (_seeds b) - Z.to_nat (- n))%nat in
  get_next_requests broker n (b, tr)
  = (Ok (firstn k (_seeds b)), (set_seeds (skipn k (_seeds b)) b, tr)).
Proof.
  intros Hne Hn k. rewrite get_next_requests_seeds by exact Hne.
  cbv zeta. unfold slice_to, slice_from, slice_index.
  rewrite Z.min_r by lia.
  destruct (Z.ltb_spec n 0); [|lia].
  replace (Z.to_nat (Z.of_nat (length (_seeds b)) + n)) with k
    by (subst k; lia).
  reflexivity.
Qed.

End MoreSeedBuffer.

Section MoreFetching.

Context (broker : Broker) {codec : Codec}.

Lemma kept_urls_none batch :
  (forall value, In value batch -> forall url, url_field value <> Ok url) ->
  kept_urls batch = [].
Proof.
  induction batch as [|value batch IH]; intros Hbad; [reflexivity|].
  rewrite (kept_urls_cons value batch), IH
    by (intros v Hv; apply Hbad; right; exact Hv).
  rewrite app_nil_r. unfold kept_urls. cbn [flat_map].
  destruct (url_field value) as [url|e] eqn:Hurl; [|reflexivity].
  exfalso. apply (Hbad value (or_introl eq_refl) url Hurl).
Qed.

(** X20. Malformed messages count as an answer: when the first poll
    brings a batch of payloads that the decoder decodes or rejects with
    [ValueError], none of them an object with a [url] key,
    [get_next_requests] returns the empty list after that one poll, with
    one warning for each message and no timeout, instead of polling
    again. *)
Theorem malformed_batch_ends_the_polling (b : Backend) (tr : trace)
    (h : nat) (max_n : Z) (batch : list (option string)) :
  _seeds b = [] ->
  _cons b = Some h ->
  0 < _comm_tries b ->
  has_level "warning" (_manager b) ->
  get_messages broker (count is_poll tr) max_n = batch ->
  batch <> [] ->
  forallb decodes_or_is_invalid batch = true ->
  (forall value, In value batch -> forall url, url_field value <> Ok url) ->
  get_next_requests broker max_n (b, tr)
  = (Ok [],
     (b, batch_log b batch ++ EvGetMessages max_n (_wait_time b) :: tr))
  /\ length (batch_log b batch) = length batch.
Proof.
  intros Hs Hc Htries Hlog Hbatch Hne Hplain Hbad.
  pose proof (kept_urls_none batch Hbad) as Hnone. split.
  - unfold get_next_requests. rewrite bind_self. cbn [fst].
    rewrite Hs. cbn [truthy Truthy_list].
    erewrite bind_Ok by (eapply _connect_consumer_connected; eassumption).
    cbn [negb]. rewrite bind_self. cbn [fst].
    erewrite bind_Ok
      by (apply world_eq, (poll_loop_batch broker b max_n [] 0 tr batch);
          auto).
    rewrite Hnone. reflexivity.
  - pose proof (kept_or_logged b batch Hplain) as Hsum.
    rewrite Hnone in Hsum. exact Hsum.
Qed.

Lemma empty_polls_set_cons c b max_n fails k :
  empty_polls (set_cons c b) max_n fails k = empty_polls b max_n fails k.
Proof.
  revert fails. induction k as [|k IH]; intros fails; [reflexivity|].
  cbn [empty_polls]. rewrite IH. reflexivity.
Qed.

(** X21. The consumer is connected when it is first needed: a call that
    finds the seed buffer empty and no consumer, with a broker that
    accepts the consumer and an idle topic, connects, stores the handle,
    polls [_comm_tries] times and returns the empty list; the next call
    polls through the stored handle without connecting again. *)
Theorem consumer_is_connected_on_demand (b : Backend) (tr : trace)
    (max_n : Z) :
  _seeds b = [] ->
  _cons b = None ->
  simple_consumer broker (count is_new_consumer tr) = None ->
  (forall i c, get_messages broker i c = []) ->
  has_level "warning" (_manager b) ->
  0 <= _comm_tries b ->
  let b' := set_cons (Some (S (count is_new_consumer tr))) b in
  let polls := empty_polls b max_n 0 (Z.to_nat (_comm_tries b)) in
  (first <- get_next_requests broker max_n ;;
   second <- get_next_requests broker max_n ;;
   ret (first, second)) (b, tr)
  = (Ok ([], []),
     (b', polls ++ polls
          ++ EvSimpleConsumer (_group b) (_topic_todo b) :: tr)).
Proof.
  intros Hs Hc Hbroker Hidle Hlog Htries b' polls.
  assert (Hconnected :
            forall tr0, get_next_requests broker max_n (b', tr0)
                        = (Ok [], (b', polls ++ tr0))).
  { intros tr0. unfold get_next_requests. rewrite bind_self. cbn [fst].
    replace (_seeds b') with (_seeds b) by reflexivity.
    rewrite Hs. cbn [truthy Truthy_list].
    erewrite bind_Ok by (eapply _connect_consumer_connected; reflexivity).
    cbn [negb]. rewrite bind_self. cbn [fst].
    erewrite bind_Ok
      by (apply world_eq, (poll_loop_idle broker b' max_n []
                             (Z.to_nat (_comm_tries b))); auto;
          cbn [_comm_tries set_cons b']; lia).
    unfold b'. rewrite empty_polls_set_cons. reflexivity. }
  assert (Hfirst :
            get_next_requests broker max_n (b, tr)
            = (Ok [], (b', polls
                           ++ EvSimpleConsumer (_group b) (_topic_todo b)
                           :: tr))).
  { unfold get_next_requests. rewrite bind_self. cbn [fst].
    rewrite Hs. cbn [truthy Truthy_list].
    erewrite bind_Ok by (apply _connect_consumer_accepted; assumption).
    cbn [negb]. rewrite bind_self. cbn [fst].
    erewrite bind_Ok
      by (apply world_eq, (poll_loop_idle broker b' max_n []
                             (Z.to_nat (_comm_tries b))); auto;
          cbn [_comm_tries set_cons b']; lia).
    unfold b'. rewrite empty_polls_set_cons. reflexivity. }
  erewrite bind_Ok by exact Hfirst.
  erewrite bind_Ok by apply Hconnected.
  reflexivity.
Qed.

(** X22. Asking for nothing empties nothing: with [max_n_requests = 0]
    and a non-empty seed buffer, every call returns the empty list and
    leaves the buffer and the world as they were, so however often it is
    repeated no seed is handed out and the topic is never polled. *)
Theorem zero_count_never_drains (b : Backend) (tr : trace) (k : nat) :
  _seeds b <> [] ->
  get_next_requests_all broker (repeat 0 k) (b, tr)
  = (Ok (repeat [] k), (b, tr)).
Proof.
  intros Hne. induction k as [|k IH]; [reflexivity|].
  cbn [repeat get_next_requests_all].
  erewrite bind_Ok by (apply get_next_requests_seeds; exact Hne).
  cbv zeta. rewrite slice_to_min, slice_from_min by lia.
  cbn [Z.to_nat firstn skipn]. rewrite set_seeds_same.
  erewrite bind_Ok by exact IH. reflexivity.
Qed.

End MoreFetching.

(** ** The further properties at concrete inputs *)

Module Instances.

Import Examples.

#[local] Existing Instance table.

Lemma connecting_twice_connects_once_witness :
  (first <- _connect_consumer idle ;;
   second <- _connect_consumer idle ;;
   ret (first, second)) (unconnected, [])
  = (Ok (true, true),
     (set_cons (Some 1%nat) unconnected,
      [EvSimpleConsumer DEFAULT_GROUP DEFAULT_TOPIC_TODO]))
  /\ (first <- _connect_producer idle ;;
      second <- _connect_producer idle ;;
      ret (first, second)) (unconnected, [])
     = (Ok (true, true),
        (set_prod (Some 1%nat) unconnected, [EvSimpleProducer])).
Proof.
  exact (connecting_twice_connects_once idle unconnected []
           eq_refl eq_refl eq_refl eq_refl).
Defined.

Lemma refused_connection_is_retried_witness :
  (first <- _connect_producer recovering ;;
   second <- _connect_producer recovering ;;
   ret (first, second)) (unconnected, [])
  = (Ok (false, true),
     (set_prod (Some 2%nat) unconnected,
      [EvSimpleProducer; EvLog "warning" CouldNotConnectProducer;
       EvSimpleProducer]))
  /\ (first <- _connect_consumer recovering ;;
      second <- _connect_consumer recovering ;;
      ret (first, second)) (unconnected, [])
     = (Ok (false, true),
        (set_cons (Some 2%nat) unconnected,
         [EvSimpleConsumer DEFAULT_GROUP DEFAULT_TOPIC_TODO;
          EvLog "warning" CouldNotConnectConsumer;
          EvSimpleConsumer DEFAULT_GROUP DEFAULT_TOPIC_TODO])).
Proof.
  exact (refused_connection_is_retried recovering unconnected []
           eq_refl eq_refl eq_refl eq_refl eq_refl eq_refl eq_refl).
Defined.

Lemma other_exceptions_propagate_witness :
  let tr' := [EvSimpleConsumer DEFAULT_GROUP DEFAULT_TOPIC_TODO] in
  _connect_consumer unavailable (unconnected, [])
  = (Raise KafkaUnavailableError, (unconnected, tr'))
  /\ frontier_start unavailable (unconnected, [])
     = (Raise KafkaUnavailableError, (unconnected, tr'))
  /\ (_seeds unconnected = [] ->
      get_next_requests unavailable 10 (unconnected, [])
      = (Raise KafkaUnavailableError, (unconnected, tr'))).
Proof.
  exact (other_exceptions_propagate unavailable unconnected []
           KafkaUnavailableError 10 eq_refl eq_refl eq_refl).
Defined.

Lemma constructor_needs_the_client_witness :
  __init__ unavailable (Some manager) None None None None None None []
  = (Raise KafkaUnavailableError,
     [EvLog "error" (CouldNotConnectServer DEFAULT_SERVER);
      EvKafkaClient DEFAULT_SERVER]).
Proof.
  exact (constructor_needs_the_client unavailable (Some manager)
           None None None None None None [] KafkaUnavailableError
           eq_refl eq_refl).
Defined.

Lemma constructor_survives_refusals_witness :
  exists b tr',
    __init__ unreachable (Some manager) None None None None None None []
    = (Ok b, tr')
    /\ (_cons b = None
        <-> simple_consumer unreachable (count is_new_consumer [])
            = Some BrokerResponseError)
    /\ (_prod b = None
        <-> simple_producer unreachable (count is_new_producer [])
            = Some BrokerResponseError)
    /\ _seeds b = []
    /\ filter is_broker_op tr'
       = EvSimpleProducer
         :: EvSimpleConsumer (py_or None DEFAULT_GROUP)
              (py_or None DEFAULT_TOPIC_TODO)
         :: EvKafkaClient (py_or None DEFAULT_SERVER)
         :: filter is_broker_op [].
Proof.
  apply (constructor_survives_refusals unreachable (Some manager)
           None None None None None None []).
  - reflexivity.
  - right. reflexivity.
  - right. reflexivity.
  - reflexivity.
Defined.


Lemma from_manager_keeps_default_retries_witness :
  _manager from_settings = configured
  /\ _wait_time from_settings = DEFAULT_WAIT_TIME
  /\ _comm_tries from_settings = DEFAULT_COMM_TRIES
  /\ _server from_settings
     = py_or (settings configured "KAFKA_SERVER") DEFAULT_SERVER
  /\ _group from_settings
     = py_or (settings configured "KAFKA_GROUP") DEFAULT_GROUP
  /\ _topic_todo from_settings
     = py_or (settings configured "KAFKA_TOPIC_TODO") DEFAULT_TOPIC_TODO
  /\ _topic_done from_settings
     = py_or (settings configured "KAFKA_TOPIC_DONE") DEFAULT_TOPIC_DONE.
Proof.
  apply (from_manager_keeps_default_retries idle configured [] from_settings
           [EvSimpleProducer; EvSimpleConsumer "crawlers" DEFAULT_TOPIC_TODO;
            EvKafkaClient "kafka:9092"]).
  reflexivity.
Defined.

Lemma refused_sends_are_retried_witness :
  let obj := PyDict [("url", a); ("links", PyList [b; c])] in
  let new :=
    EvSendMessages DEFAULT_TOPIC_DONE (encode obj)
    :: failed_sends connected (encode obj) 0 2 in
  _send_message (flaky 2 []) obj (connected, [])
  = (Ok true, (connected, new ++ []))
  /\ page_crawled (flaky 2 []) a [b; c] (connected, [])
     = (Ok tt, (connected, new ++ []))
  /\ count is_send new = 3%nat
  /\ count is_sleep new = 2%nat.
Proof.
  apply (refused_sends_are_retried (flaky 2 []) connected [] 1%nat a [b; c]
           2%nat).
  - reflexivity.
  - reflexivity.
  - unfold Qle. cbn. lia.
  - intros [|[|j]] Hj; [reflexivity | reflexivity | cbn in Hj; lia].
  - reflexivity.
  - cbn. lia.
Defined.

Lemma unconnected_producer_sends_nothing_witness :
  let obj := PyDict [("url", a); ("links", PyList [b; c])] in
  let tr' := [EvLog "warning" CouldNotConnectProducer; EvSimpleProducer] in
  _send_message unreachable obj (unconnected, [])
  = (Ok false, (unconnected, tr'))
  /\ page_crawled unreachable a [b; c] (unconnected, [])
     = (Ok tt, (unconnected, tr')).
Proof.
  exact (unconnected_producer_sends_nothing unreachable unconnected [] a
           [b; c] eq_refl eq_refl eq_refl).
Defined.

Lemma other_send_exceptions_propagate_witness :
  let obj := PyDict [("url", a); ("links", PyList [b; c])] in
  let tr' := [EvSendMessages DEFAULT_TOPIC_DONE (encode obj)] in
  _send_message unavailable obj (connected, [])
  = (Raise KafkaUnavailableError, (connected, tr'))
  /\ page_crawled unavailable a [b; c] (connected, [])
     = (Raise KafkaUnavailableError, (connected, tr')).
Proof.
  apply (other_send_exceptions_propagate unavailable connected [] 1%nat a
           [b; c] KafkaUnavailableError).
  - reflexivity.
  - reflexivity.
  - reflexivity.
  - cbn. lia.
Defined.

Lemma publishing_is_bounded_witness :
  exists new,
    failed_sends connected (encode (PyStr "page")) 0 3 = new ++ []
    /\ forallb (publishing (_topic_done connected) (encode (PyStr "page")))
         new = true
    /\ (count is_new_producer new <= 1)%nat
    /\ (count is_send new <= Z.to_nat (_comm_tries connected))%nat
    /\ connected = set_prod (_prod connected) connected.
Proof.
  apply (publishing_is_bounded idle connected [] (PyStr "page") (Ok false)).
  reflexivity.
Defined.

Lemma fetching_is_bounded_witness :
  exists new,
    empty_polls connected 10 0 3 = new ++ []
    /\ forallb (fetching (_group connected) (_topic_todo connected) 10
                  (_wait_time connected)) new = true
    /\ (count is_new_consumer new <= 1)%nat
    /\ (count is_poll new <= Z.to_nat (_comm_tries connected))%nat
    /\ connected = set_seeds (_seeds connected)
                     (set_cons (_cons connected) connected).
Proof.
  apply (fetching_is_bounded idle connected [] 10 (Ok [])).
  reflexivity.
Defined.

Lemma never_more_than_asked_witness :
  Z.of_nat (length [Request a]) <= 10.
Proof.
  apply (never_more_than_asked (delivering [good; no_url]) connected [] 10
           [Request a] connected
           [EvLog "warning" CouldNotGetUrl; EvGetMessages 10 0]).
  - lia.
  - intros [|i]; cbn; lia.
  - reflexivity.
Defined.

Lemma first_batch_ends_the_polling_witness :
  let new :=
    batch_log connected [good; no_url]
    ++ EvGetMessages 10 (_wait_time connected)
    :: empty_polls connected 10 0 2 in
  get_next_requests (flaky 2 [good; no_url]) 10 (connected, [])
  = (Ok (map Request (kept_urls [good; no_url])), (connected, new ++ []))
  /\ count is_poll new = 3%nat.
Proof.
  apply (first_batch_ends_the_polling (flaky 2 [good; no_url]) connected []
           1%nat 10 2%nat [good; no_url]).
  - reflexivity.
  - reflexivity.
  - reflexivity.
  - intros [|[|j]] Hj; [reflexivity | reflexivity | cbn in Hj; lia].
  - reflexivity.
  - discriminate.
  - reflexivity.
  - cbn. lia.
Defined.

Lemma start_returns_connected_or_not_witness :
  frontier_start idle (unconnected, [])
  = (Ok tt,
     (set_cons (Some 1%nat) unconnected,
      [EvLog "info" (ConnectedConsumer DEFAULT_TOPIC_TODO);
       EvSimpleConsumer DEFAULT_GROUP DEFAULT_TOPIC_TODO])).
Proof.
  apply (start_returns_connected_or_not idle unconnected []).
  - reflexivity.
  - left. reflexivity.
  - reflexivity.
  - reflexivity.
Defined.

(** [KafkaBackend()] on a healthy broker, and then [frontier_start()]. *)
Lemma test_manager_cannot_start_connected_witness :
  __init__ idle None None None None None None None []
  = (Ok by_default,
     [EvSimpleProducer; EvSimpleConsumer DEFAULT_GROUP DEFAULT_TOPIC_TODO;
      EvKafkaClient DEFAULT_SERVER])
  /\ forall h, _cons by_default = Some h ->
       frontier_start idle (by_default, [])
       = (Raise AttributeError, (by_default, [])).
Proof.
  split; [reflexivity|].
  apply (test_manager_cannot_start_connected idle by_default []).
  reflexivity.
Defined.

Lemma stop_keeps_the_producer_witness :
  (frontier_stop ;; frontier_stop ;; _send_message (delivering []) a)
    (connected, [])
  = (Ok true,
     (connected,
      [EvSendMessages DEFAULT_TOPIC_DONE (encode a);
       EvProducerStop; EvProducerStop])).
Proof.
  apply (stop_keeps_the_producer (delivering []) connected [] 1%nat a).
  - reflexivity.
  - reflexivity.
  - cbn. lia.
Defined.

Lemma seed_buffer_is_a_queue_witness :
  let calls :=
    [AddSeeds [a; b]; GetNextRequests 1; AddSeeds [c]; GetNextRequests 5] in
  exists results rest tr',
    buffer_calls unreachable calls (unconnected, [])
    = (Ok results, (set_seeds rest unconnected, tr'))
    /\ concat results ++ rest = _seeds unconnected ++ seeds_added calls
    /\ length results
       = length (filter (fun c => match c with
                                  | GetNextRequests _ => true
                                  | AddSeeds _ => false
                                  end) calls).
Proof.
  apply (seed_buffer_is_a_queue unreachable
           [AddSeeds [a; b]; GetNextRequests 1; AddSeeds [c];
            GetNextRequests 5] unconnected []).
  - reflexivity.
  - intros i. reflexivity.
  - reflexivity.
  - cbn. lia.
Defined.

Lemma negative_count_keeps_the_tail_witness :
  get_next_requests idle (-1) (set_seeds [a; b; c] connected, [])
  = (Ok [a; b], (set_seeds [c] connected, [])).
Proof.
  apply (negative_count_keeps_the_tail idle (set_seeds [a; b; c] connected)
           [] (-1)).
  - discriminate.
  - lia.
Defined.

Lemma malformed_batch_ends_the_polling_witness :
  get_next_requests (delivering [no_url; garbage]) 10 (connected, [])
  = (Ok [],
     (connected,
      batch_log connected [no_url; garbage]
      ++ [EvGetMessages 10 (_wait_time connected)]))
  /\ length (batch_log connected [no_url; garbage])
     = length [no_url; garbage].
Proof.
  apply (malformed_batch_ends_the_polling (delivering [no_url; garbage])
           connected [] 1%nat 10 [no_url; garbage]).
  - reflexivity.
  - reflexivity.
  - cbn. lia.
  - reflexivity.
  - reflexivity.
  - discriminate.
  - reflexivity.
  - intros value [<-|[<-|[]]] url; vm_compute; discriminate.
Defined.

Lemma consumer_is_connected_on_demand_witness :
  let b' := set_cons (Some 1%nat) unconnected in
  let polls := empty_polls unconnected 10 0 3 in
  (first <- get_next_requests idle 10 ;;
   second <- get_next_requests idle 10 ;;
   ret (first, second)) (unconnected, [])
  = (Ok ([], []),
     (b', polls ++ polls
          ++ [EvSimpleConsumer DEFAULT_GROUP DEFAULT_TOPIC_TODO])).
Proof.
  apply (consumer_is_connected_on_demand idle unconnected [] 10).
  - reflexivity.
  - reflexivity.
  - reflexivity.
  - intros i c. reflexivity.
  - reflexivity.
  - cbn. lia.
Defined.

(** A wait of minus one second: one send, one warning, and the sleep
    raises. *)
Lemma negative_wait_ends_the_retrying_witness :
  let obj := PyDict [("url", a); ("links", PyList [b; c])] in
  let tr' :=
    [EvLog "warning" (CouldNotSend 1 3);
     EvSendMessages DEFAULT_TOPIC_DONE (encode obj)] in
  _send_message idle obj (hasty, []) = (Raise IOError, (hasty, tr'))
  /\ page_crawled idle a [b; c] (hasty, []) = (Raise IOError, (hasty, tr')).
Proof.
  apply (negative_wait_ends_the_retrying idle hasty [] 1%nat a [b; c]).
  - reflexivity.
  - reflexivity.
  - reflexivity.
  - reflexivity.
  - cbn. lia.
Defined.

(** A message without payload between two well-formed ones: the call
    raises [TypeError] and returns no request. *)
Lemma other_decode_exception_ends_the_call_witness :
  get_next_requests (delivering [good; null; good]) 10 (connected, [])
  = (Raise TypeError, (connected, [EvGetMessages 10 0])).
Proof.
  assert (Htries : 0 < _comm_tries connected) by (cbn; lia).
  exact (other_decode_exception_ends_the_call
           (delivering [good; null; good]) connected [] 1%nat 10
           [good] [good] null TypeError
           eq_refl eq_refl Htries eq_refl eq_refl eq_refl eq_refl eq_refl).
Defined.

Lemma zero_count_never_drains_witness :
  get_next_requests_all idle [0; 0; 0] (set_seeds [a] connected, [])
  = (Ok [[]; []; []], (set_seeds [a] connected, [])).
Proof.
  apply (zero_count_never_drains idle (set_seeds [a] connected) [] 3).
  discriminate.
Defined.

End Instances.
